(** * Fitness services: workout tracking API and weekly plan generator

    A shallow embedding of the two FastAPI services of the repository:
    - [Tracker] follows [new-workout-plan-api.py] (exercise catalog,
      workout validation, session start, session completion, history);
    - [Planner] follows [main.py] (random weekly workout and diet plan).

    Python values are modelled as follows: [int] as [Z], [str] as [string],
    [list] as [list], [dict] as an insertion-ordered association list
    ([PyDict]), [float] results of a true division of two integers as the
    exact rational in [Q], a raised exception as the [Raise] branch of
    [result].  Module-level dictionaries are fields of an explicit server
    state threaded through every handler. *)

From Stdlib Require Import ZArith QArith Ascii String List Lia Permutation.
From stdpp Require Import base list strings pretty.

Open Scope string_scope.
Open Scope list_scope.
Open Scope Z_scope.

(** ** Exceptions and results *)

Inductive exn : Type :=
  | HTTPException (status_code : Z) (detail : string)
  | KeyError (key : string)
  | IndexError
  | ValueError
  | OverflowError
  | ZeroDivisionError.

Inductive result (A : Type) : Type :=
  | Ok (a : A)
  | Raise (e : exn).
Arguments Ok {A} a.
Arguments Raise {A} e.

(** ** Insertion-ordered dictionaries

    A Python [dict] keeps its keys in the order of their first insertion;
    assigning to an existing key replaces the value in place. *)

Module PyDict.
Section PyDict.
Context {K V : Type} `{EqDecision K}.

Fixpoint get (d : list (K * V)) (k : K) : option V :=
  match d with
  | [] => None
  | (k', v) :: d' => if decide (k = k') then Some v else get d' k
  end.

Definition get_default (d : list (K * V)) (k : K) (dflt : V) : V :=
  match get d k with Some v => v | None => dflt end.

Fixpoint set (d : list (K * V)) (k : K) (v : V) : list (K * V) :=
  match d with
  | [] => [(k, v)]
  | (k', v') :: d' =>
      if decide (k = k') then (k, v) :: d' else (k', v') :: set d' k v
  end.

Definition keys (d : list (K * V)) : list K := map fst d.
Definition values (d : list (K * V)) : list V := map snd d.
Definition contains (d : list (K * V)) (k : K) : bool :=
  match get d k with Some _ => true | None => false end.
End PyDict.
End PyDict.

Abbreviation pydict K V := (list (K * V)) (only parsing).

(** ** The parts of [datetime] the services use *)

Module Datetime.

Record datetime : Type := mk_datetime {
  year : Z; month : Z; day : Z;
  hour : Z; minute : Z; second : Z; microsecond : Z
}.

Definition MINYEAR : Z := 1.
Definition MAXYEAR : Z := 9999.
Definition MAXORDINAL : Z := 3652059.

Definition is_leap (y : Z) : bool :=
  (y mod 4 =? 0) && (negb (y mod 100 =? 0) || (y mod 400 =? 0)).

Definition DAYS_IN_MONTH : list Z :=
  [31; 28; 31; 30; 31; 30; 31; 31; 30; 31; 30; 31].

Definition days_in_month (y m : Z) : Z :=
  if (m =? 2) && is_leap y then 29
  else nth (Z.to_nat (m - 1)) DAYS_IN_MONTH 0.

Definition days_before_year (y : Z) : Z :=
  let y := y - 1 in y * 365 + y / 4 - y / 100 + y / 400.

Definition days_before_month (y m : Z) : Z :=
  fold_right Z.add 0 (firstn (Z.to_nat (m - 1)) DAYS_IN_MONTH)
  + (if (2 <? m) && is_leap y then 1 else 0).

Definition ymd2ord (y m d : Z) : Z :=
  days_before_year y + days_before_month y m + d.

Definition toordinal (t : datetime) : Z :=
  ymd2ord (year t) (month t) (day t).

(** [check_date_fields]: the constructor raises [ValueError] outside. *)
Definition valid_date (y m d : Z) : bool :=
  (MINYEAR <=? y) && (y <=? MAXYEAR) && (1 <=? m) && (m <=? 12)
  && (1 <=? d) && (d <=? days_in_month y m).

(** [t + timedelta(days=n)], as far as its calendar day is concerned:
    the proleptic ordinal of the resulting day, [OverflowError] when it
    leaves the supported range. *)
Definition add_days (t : datetime) (n : Z) : result Z :=
  let o := toordinal t + n in
  if (0 <? o) && (o <=? MAXORDINAL) then Ok o else Raise OverflowError.

Definition DAY_NAMES : list string :=
  ["Monday"; "Tuesday"; "Wednesday"; "Thursday"; "Friday"; "Saturday";
   "Sunday"].

(** [strftime("%A")] of the day with the given ordinal. *)
Definition day_name (ordinal : Z) : string :=
  nth (Z.to_nat ((ordinal + 6) mod 7)) DAY_NAMES "".

(** [%0wd] formatting of a non-negative integer. *)
Definition zero_pad (width : nat) (n : Z) : string :=
  let s := pretty n in
  String.concat "" (replicate (width - String.length s) "0") +:+ s.

(** [strftime('%Y%m%d_%H%M%S')] *)
Definition strftime_compact (t : datetime) : string :=
  zero_pad 4 (year t) +:+ zero_pad 2 (month t) +:+ zero_pad 2 (day t)
  +:+ "_" +:+ zero_pad 2 (hour t) +:+ zero_pad 2 (minute t)
  +:+ zero_pad 2 (second t).

Definition isoformat (t : datetime) : string :=
  zero_pad 4 (year t) +:+ "-" +:+ zero_pad 2 (month t) +:+ "-"
  +:+ zero_pad 2 (day t) +:+ "T" +:+ zero_pad 2 (hour t) +:+ ":"
  +:+ zero_pad 2 (minute t) +:+ ":" +:+ zero_pad 2 (second t)
  +:+ (if microsecond t =? 0 then ""
       else "." +:+ zero_pad 6 (microsecond t)).

End Datetime.


(** ** [new-workout-plan-api.py]: the workout tracking service *)

Module Tracker.
Import PyDict Datetime.

Inductive MuscleGroup : Type :=
  CHEST | BACK | SHOULDERS | BICEPS | TRICEPS | LEGS | CORE.

#[global] Instance MuscleGroup_eq_dec : EqDecision MuscleGroup.
Proof. solve_decision. Defined.

Definition value (m : MuscleGroup) : string :=
  match m with
  | CHEST => "Chest" | BACK => "Back" | SHOULDERS => "Shoulders"
  | BICEPS => "Biceps" | TRICEPS => "Triceps" | LEGS => "Legs"
  | CORE => "Core"
  end.

Record Exercise : Type := {
  id : string;
  name : string;
  muscle_groups : list MuscleGroup;
  description : string;
  equipment_needed : option string;
  difficulty_level : string;
  recommended_rest : Z
}.

Record ExerciseSelection : Type := {
  exercise_id : string;
  sets : Z;
  reps : Z;
  rest_time : Z
}.

Record WorkoutSession : Type := {
  session_date : string;
  exercises : list ExerciseSelection
}.

Record WorkoutCompletion : Type := {
  completed_exercise_id : string;
  completed_sets : Z;
  actual_reps : list Z;
  time_taken : Z;
  difficulty_rating : Z
}.

Record WorkoutHistory : Type := {
  session_id : string;
  date : string;
  exercises_completed : list WorkoutCompletion;
  total_time : Z;
  overall_difficulty : Q
}.

Definition EXERCISE_DATABASE : pydict string Exercise :=
  [ ("push-up-001",
     {| id := "push-up-001";
        name := "Push-ups";
        muscle_groups := [CHEST; SHOULDERS; TRICEPS];
        description := "Standard push-up position, lower body until chest nearly touches ground";
        equipment_needed := None;
        difficulty_level := "beginner";
        recommended_rest := 60 |});
    ("squat-001",
     {| id := "squat-001";
        name := "Bodyweight Squats";
        muscle_groups := [LEGS];
        description := "Stand with feet shoulder-width apart, lower body until thighs are parallel to ground";
        equipment_needed := None;
        difficulty_level := "beginner";
        recommended_rest := 60 |}) ].

(** The two module-level dictionaries.  [workout_history] starts empty;
    the catalog starts as [EXERCISE_DATABASE]. *)
Record Server : Type := {
  exercise_database : pydict string Exercise;
  workout_history : pydict string WorkoutHistory
}.

Definition initial_server : Server :=
  {| exercise_database := EXERCISE_DATABASE; workout_history := [] |}.

(** A request handler reads and possibly updates the server state, and
    either returns a response or raises. *)
Definition Handler (A : Type) : Type := Server -> result A * Server.

(** *** GET /exercises and GET /exercises/{muscle_group} *)

Definition get_exercises : Handler (list Exercise) :=
  fun srv => (Ok (values (exercise_database srv)), srv).

Definition get_exercises_by_muscle (muscle_group : MuscleGroup)
  : Handler (list Exercise) :=
  fun srv =>
    (Ok (filter (fun exercise => muscle_group ∈ muscle_groups exercise)
           (values (exercise_database srv))), srv).

(** *** POST /validate-workout *)

Record Validation : Type := {
  is_valid : bool;
  warnings : list string;
  muscle_group_distribution : pydict MuscleGroup Z
}.

Definition warning_message (muscle : MuscleGroup) (count : Z) : string :=
  "Warning: " +:+ value muscle +:+ " is being trained " +:+ pretty count
  +:+ " times. "
  +:+ "This might lead to excessive fatigue. Consider spreading exercises across different muscle groups.".

(** Body of the inner loop [for muscle in exercise["muscle_groups"]]. *)
Definition count_muscle (st : pydict MuscleGroup Z * list string)
    (muscle : MuscleGroup) : pydict MuscleGroup Z * list string :=
  let '(muscle_group_count, warnings) := st in
  let muscle_group_count :=
    set muscle_group_count muscle (get_default muscle_group_count muscle 0 + 1) in
  let n := get_default muscle_group_count muscle 0 in
  if 2 <? n
  then (muscle_group_count, warnings ++ [warning_message muscle n])
  else (muscle_group_count, warnings).

(** The outer loop [for selection in selections]. *)
Fixpoint validate_loop (db : pydict string Exercise)
    (selections : list ExerciseSelection)
    (st : pydict MuscleGroup Z * list string)
  : result (pydict MuscleGroup Z * list string) :=
  match selections with
  | [] => Ok st
  | selection :: rest =>
      match get db (exercise_id selection) with
      | None =>
          Raise (HTTPException 400
                   ("Exercise " +:+ exercise_id selection +:+ " not found"))
      | Some exercise =>
          validate_loop db rest
            (fold_left count_muscle (muscle_groups exercise) st)
      end
  end.

Definition validate_workout (selections : list ExerciseSelection)
  : Handler Validation :=
  fun srv =>
    match validate_loop (exercise_database srv) selections ([], []) with
    | Raise e => (Raise e, srv)
    | Ok (muscle_group_count, warnings) =>
        (Ok {| is_valid := (length warnings =? 0)%nat;
               warnings := warnings;
               muscle_group_distribution := muscle_group_count |}, srv)
    end.

(** *** POST /start-workout *)

Record PlanEntry : Type := {
  exercise : Exercise;
  planned_sets : Z;
  planned_reps : Z;
  planned_rest_time : Z
}.

Record SessionPlan : Type := {
  started_session_id : string;
  started_at : string;
  exercise_plan : list PlanEntry
}.

(** The validation loop of [start_workout]. *)
Fixpoint check_exercises (db : pydict string Exercise)
    (selections : list ExerciseSelection) : result unit :=
  match selections with
  | [] => Ok tt
  | exercise_selection :: rest =>
      if contains db (exercise_id exercise_selection)
      then check_exercises db rest
      else Raise (HTTPException 400
                    ("Exercise " +:+ exercise_id exercise_selection
                     +:+ " not found"))
  end.

(** The comprehension building ["exercise_plan"]; a subscript of a
    missing key raises [KeyError]. *)
Fixpoint build_exercise_plan (db : pydict string Exercise)
    (selections : list ExerciseSelection) : result (list PlanEntry) :=
  match selections with
  | [] => Ok []
  | ex :: rest =>
      match get db (exercise_id ex) with
      | None => Raise (KeyError (exercise_id ex))
      | Some e =>
          match build_exercise_plan db rest with
          | Raise err => Raise err
          | Ok plan =>
              Ok ({| exercise := e; planned_sets := sets ex;
                     planned_reps := reps ex;
                     planned_rest_time := rest_time ex |} :: plan)
          end
      end
  end.

(** [now1] and [now2] are the two readings of [datetime.now()]. *)
Definition start_workout (now1 now2 : datetime) (workout : WorkoutSession)
  : Handler SessionPlan :=
  fun srv =>
    let session_id := "workout_" +:+ strftime_compact now1 in
    match check_exercises (exercise_database srv) (exercises workout) with
    | Raise e => (Raise e, srv)
    | Ok _ =>
        match build_exercise_plan (exercise_database srv) (exercises workout) with
        | Raise e => (Raise e, srv)
        | Ok plan =>
            (Ok {| started_session_id := session_id;
                   started_at := isoformat now2;
                   exercise_plan := plan |}, srv)
        end
    end.

(** *** POST /complete-workout/{session_id} *)

(** The builtin [sum] over integers. *)
Definition sum (l : list Z) : Z := fold_left Z.add l 0.

(** [a / b] on integers: the quotient as a rational. *)
Definition true_div (a b : Z) : result Q :=
  if b =? 0 then Raise ZeroDivisionError
  else Ok (inject_Z a / inject_Z b)%Q.

Definition complete_workout (now : datetime) (session_id : string)
    (completion : list WorkoutCompletion) : Handler WorkoutHistory :=
  fun srv =>
    match completion with
    | [] => (Raise (HTTPException 400 "No exercises completed"), srv)
    | _ :: _ =>
        let total_time := sum (map time_taken completion) in
        match true_div (sum (map difficulty_rating completion))
                (Z.of_nat (length completion)) with
        | Raise e => (Raise e, srv)
        | Ok overall_difficulty =>
            let history_entry :=
              {| session_id := session_id;
                 date := isoformat now;
                 exercises_completed := completion;
                 total_time := total_time;
                 overall_difficulty := overall_difficulty |} in
            (Ok history_entry,
             {| exercise_database := exercise_database srv;
                workout_history :=
                  set (workout_history srv) session_id history_entry |})
        end
    end.

(** *** GET /workout-history/{date} and GET /export-history/{date} *)

Inductive HistoryResponse : Type :=
  | NoWorkouts (message : string)
  | DailyHistory (sessions : list WorkoutHistory).

Definition startswith (s prefix : string) : bool := String.prefix prefix s.

Definition get_workout_history (date_prefix : string)
  : Handler HistoryResponse :=
  fun srv =>
    let daily_history :=
      filter (fun session => startswith (date session) date_prefix = true)
        (values (workout_history srv)) in
    match daily_history with
    | [] => (Ok (NoWorkouts "No workouts found for this date"), srv)
    | _ :: _ => (Ok (DailyHistory daily_history), srv)
    end.

Inductive ExportResponse : Type :=
  | ExportMessage (message : string)
  | ExportData (export_date : string) (total_sessions : Z)
      (sessions : list WorkoutHistory).

Definition export_workout_history (date_prefix : string)
  : Handler ExportResponse :=
  fun srv =>
    match get_workout_history date_prefix srv with
    | (Raise e, srv') => (Raise e, srv')
    | (Ok (NoWorkouts message), srv') => (Ok (ExportMessage message), srv')
    | (Ok (DailyHistory daily_history), srv') =>
        (Ok (ExportData date_prefix (Z.of_nat (length daily_history))
               daily_history), srv')
    end.

(** *** Vocabulary of the properties *)

(** The selection's exercise is in the catalog and trains group [g]. *)
Definition targets (db : pydict string Exercise) (g : MuscleGroup)
    (s : ExerciseSelection) : bool :=
  match get db (exercise_id s) with
  | Some e => bool_decide (g ∈ muscle_groups e)
  | None => false
  end.

(** Number of selections whose exercise trains group [g]. *)
Definition times_trained (db : pydict string Exercise)
    (selections : list ExerciseSelection) (g : MuscleGroup) : nat :=
  length (List.filter (targets db g) selections).

(** The first selection whose exercise id is not in the catalog. *)
Definition first_unknown (db : pydict string Exercise)
    (selections : list ExerciseSelection) : option ExerciseSelection :=
  List.find (fun s => negb (contains db (exercise_id s))) selections.

(** The muscle groups the validation loops visit, in order. *)
Definition trained_groups (db : pydict string Exercise)
    (selections : list ExerciseSelection) : list MuscleGroup :=
  flat_map (fun s => match get db (exercise_id s) with
                     | Some e => muscle_groups e
                     | None => []
                     end) selections.

Definition unknown_exercise (s : ExerciseSelection) : exn :=
  HTTPException 400 ("Exercise " +:+ exercise_id s +:+ " not found").

(** *** Sample inputs *)

Definition example_now : datetime := mk_datetime 2024 3 5 7 8 9 0.

Definition example_later : datetime := mk_datetime 2024 3 6 18 30 0 0.

Definition example_completion : list WorkoutCompletion :=
  [ {| completed_exercise_id := "push-up-001"; completed_sets := 3;
       actual_reps := [10; 9; 8]; time_taken := 30; difficulty_rating := 4 |};
    {| completed_exercise_id := "squat-001"; completed_sets := 3;
       actual_reps := [12; 12; 12]; time_taken := 45; difficulty_rating := 2 |} ].

Definition example_completion_2 : list WorkoutCompletion :=
  [ {| completed_exercise_id := "squat-001"; completed_sets := 1;
       actual_reps := [15]; time_taken := 20; difficulty_rating := 5 |} ].


Definition example_selections_unknown : list ExerciseSelection :=
  [ {| exercise_id := "squat-001"; sets := 3; reps := 12; rest_time := 60 |};
    {| exercise_id := "burpee-001"; sets := 3; reps := 10; rest_time := 60 |};
    {| exercise_id := "push-up-001"; sets := 3; reps := 10; rest_time := 60 |} ].

(** A catalog with two further entries, which the comment closing the
    source table ([Add more exercises here]) invites. *)
Definition extended_server : Server :=
  {| exercise_database :=
       EXERCISE_DATABASE ++
       [ ("plank-001",
          {| id := "plank-001"; name := "Plank"; muscle_groups := [CORE];
             description := "Hold a straight line from head to heels";
             equipment_needed := None; difficulty_level := "beginner";
             recommended_rest := 45 |});
         ("crunch-001",
          {| id := "crunch-001"; name := "Crunches"; muscle_groups := [CORE];
             description := "Lift the shoulders off the floor";
             equipment_needed := None; difficulty_level := "beginner";
             recommended_rest := 45 |}) ];
     workout_history := [] |}.

Definition example_selections_core : list ExerciseSelection :=
  [ {| exercise_id := "plank-001"; sets := 3; reps := 1; rest_time := 45 |};
    {| exercise_id := "crunch-001"; sets := 3; reps := 15; rest_time := 45 |};
    {| exercise_id := "plank-001"; sets := 2; reps := 1; rest_time := 45 |} ].

Definition example_selections_legs : list ExerciseSelection :=
  [ {| exercise_id := "squat-001"; sets := 3; reps := 12; rest_time := 60 |};
    {| exercise_id := "squat-001"; sets := 3; reps := 15; rest_time := 60 |};
    {| exercise_id := "squat-001"; sets := 2; reps := 20; rest_time := 90 |} ].

Definition example_selections_balanced : list ExerciseSelection :=
  [ {| exercise_id := "push-up-001"; sets := 3; reps := 10; rest_time := 60 |};
    {| exercise_id := "squat-001"; sets := 3; reps := 12; rest_time := 60 |};
    {| exercise_id := "push-up-001"; sets := 2; reps := 8; rest_time := 60 |} ].

(** The server after two sessions were completed on consecutive days. *)
Definition example_history_server : Server :=
  snd (complete_workout example_later "workout_20240306_183000"
         example_completion_2
         (snd (complete_workout example_now "workout_20240305_070809"
                 example_completion initial_server))).

(** *** Requests served one after the other *)

Inductive Request : Type :=
  | GetExercises
  | GetExercisesByMuscle (muscle_group : MuscleGroup)
  | ValidateWorkout (selections : list ExerciseSelection)
  | StartWorkout (now1 now2 : datetime) (workout : WorkoutSession)
  | CompleteWorkout (now : datetime) (session_id : string)
      (completion : list WorkoutCompletion)
  | GetWorkoutHistory (date_prefix : string)
  | ExportWorkoutHistory (date_prefix : string).

(** The server state a request leaves behind. *)
Definition serve (r : Request) (srv : Server) : Server :=
  match r with
  | GetExercises => snd (get_exercises srv)
  | GetExercisesByMuscle g => snd (get_exercises_by_muscle g srv)
  | ValidateWorkout selections => snd (validate_workout selections srv)
  | StartWorkout now1 now2 workout => snd (start_workout now1 now2 workout srv)
  | CompleteWorkout now sid completion =>
      snd (complete_workout now sid completion srv)
  | GetWorkoutHistory d => snd (get_workout_history d srv)
  | ExportWorkoutHistory d => snd (export_workout_history d srv)
  end.

Definition serve_all (rs : list Request) (srv : Server) : Server :=
  fold_left (fun s r => serve r s) rs srv.

Definition is_completion (r : Request) : bool :=
  match r with CompleteWorkout _ _ _ => true | _ => false end.

(** A history record agrees with the completions it holds. *)
Definition consistent (h : WorkoutHistory) : Prop :=
  exercises_completed h ≠ []
  /\ total_time h = foldr Z.add 0 (map time_taken (exercises_completed h))
  /\ (overall_difficulty h ==
      inject_Z (foldr Z.add 0%Z (map difficulty_rating (exercises_completed h)))
      / inject_Z (Z.of_nat (length (exercises_completed h))))%Q.

(** A plan entry is the catalog exercise of a selection together with the
    selection's sets, reps and rest time. *)
Definition entry_of (db : pydict string Exercise) (s : ExerciseSelection)
    (e : PlanEntry) : Prop :=
  get db (exercise_id s) = Some (exercise e)
  /\ planned_sets e = sets s
  /\ planned_reps e = reps s
  /\ planned_rest_time e = rest_time s.


Definition example_selections_known : list ExerciseSelection :=
  [ {| exercise_id := "squat-001"; sets := 3; reps := 12; rest_time := 60 |};
    {| exercise_id := "push-up-001"; sets := 4; reps := 10; rest_time := 90 |} ].


(** The sessions a history query answers with (none with its message). *)
Definition sessions_found (date_prefix : string) (srv : Server)
  : list WorkoutHistory :=
  match fst (get_workout_history date_prefix srv) with
  | Ok (DailyHistory sessions) => sessions
  | _ => []
  end.

End Tracker.


(** ** The parts of [random] the plan generator uses

    The generator state is the stream of raw draws still to come; every
    property below is stated for an arbitrary stream. *)

Module Random.

Definition rng : Type := nat -> nat.

(** A computation that may consume draws and may raise. *)
Definition Rand (A : Type) : Type := rng -> result A * rng.

Definition ret {A : Type} (a : A) : Rand A := fun g => (Ok a, g).

Definition raise {A : Type} (e : exn) : Rand A := fun g => (Raise e, g).

Definition lift {A : Type} (r : result A) : Rand A := fun g => (r, g).

Definition bind {A B : Type} (m : Rand A) (f : A -> Rand B) : Rand B :=
  fun g =>
    match m g with
    | (Ok a, g') => f a g'
    | (Raise e, g') => (Raise e, g')
    end.

Notation "x <- m ;; k" := (bind m (fun x => k))
  (at level 100, m at next level, right associativity).

(** [_randbelow(n)] for a positive [n]: some value below [n]. *)
Definition randbelow (n : nat) : Rand nat :=
  fun g => (Ok (g 0%nat mod n)%nat, fun i => g (S i)).

(** [randint(a, b)]: [a + _randbelow(b - a + 1)]. *)
Definition randint (a b : Z) : Rand Z :=
  let width := b + 1 - a in
  if 0 <? width
  then (j <- randbelow (Z.to_nat width) ;; ret (a + Z.of_nat j))
  else raise ValueError.

(** [choice(seq)]: [seq[_randbelow(len(seq))]]. *)
Definition choice {A : Type} (seq : list A) : Rand A :=
  match seq with
  | [] => raise IndexError
  | _ :: _ =>
      j <- randbelow (length seq) ;;
      match seq !! j with
      | Some x => ret x
      | None => raise IndexError
      end
  end.

(** The selection loop of [sample] over a copy [pool] of the population:
    at step [i] a position [j] below [n - i] is drawn, [pool[j]] is
    selected and the last live element [pool[n - i - 1]] moves into the
    hole.  [todo] counts the iterations left. *)
Fixpoint sample_loop {A : Type} (todo : nat) (i n : nat) (pool : list A)
  : Rand (list A) :=
  match todo with
  | O => ret []
  | S todo' =>
      j <- randbelow (n - i) ;;
      match pool !! j, pool !! (n - i - 1)%nat with
      | Some x, Some y =>
          selected <- sample_loop todo' (S i) n (<[j := y]> pool) ;;
          ret (x :: selected)
      | _, _ => raise IndexError
      end
  end.

(** [sample(population, k)] *)
Definition sample {A : Type} (population : list A) (k : Z) : Rand (list A) :=
  let n := length population in
  if (0 <=? k) && (k <=? Z.of_nat n)
  then sample_loop (Z.to_nat k) 0 n population
  else raise ValueError.

(** [for x in l: out.append(f(x))] *)
Fixpoint for_each {A B : Type} (f : A -> Rand B) (l : list A)
  : Rand (list B) :=
  match l with
  | [] => ret []
  | x :: l' => y <- f x ;; ys <- for_each f l' ;; ret (y :: ys)
  end.

(** [l] is drawn from [population] without replacement: its elements are
    elements at distinct positions of [population]. *)
Definition drawn_from {A : Type} (l population : list A) : Prop :=
  exists rest, l ++ rest ≡ₚ population.

End Random.


(** ** [main.py]: the weekly plan generator *)

Module Planner.
Import PyDict Datetime Random.

Record WorkoutPlanRequest : Type := {
  fitness_level : string;
  duration_minutes : Z;
  start_date : string
}.

Record Exercise : Type := {
  name : string;
  sets : Z;
  reps : string;
  rest_seconds : Z
}.

Record WorkoutDay : Type := {
  day : string;
  focus_area : string;
  exercises : list Exercise;
  calories_burn_estimate : Z
}.

Record Meal : Type := {
  meal_name : string;
  calories : Z;
  protein : Z;
  carbs : Z;
  fats : Z;
  description : string
}.

Record DietDay : Type := {
  diet_day : string;
  total_calories : Z;
  meals : list Meal
}.

Record WeeklyPlan : Type := {
  workout_plan : list WorkoutDay;
  diet_plan : list DietDay
}.

Definition EXERCISE_LIBRARY : pydict string (pydict string (list Exercise)) :=
  [ ("beginner",
     [ ("Upper Body",
        [ {| name := "Push-ups"; sets := 3; reps := "8-10"; rest_seconds := 60 |};
          {| name := "Band Rows"; sets := 3; reps := "12"; rest_seconds := 60 |};
          {| name := "Shoulder Press"; sets := 3; reps := "10"; rest_seconds := 60 |} ]);
       ("Lower Body",
        [ {| name := "Bodyweight Squats"; sets := 3; reps := "12-15"; rest_seconds := 60 |};
          {| name := "Lunges"; sets := 3; reps := "10 each leg"; rest_seconds := 60 |};
          {| name := "Glute Bridges"; sets := 3; reps := "15"; rest_seconds := 45 |} ]);
       ("Core",
        [ {| name := "Plank"; sets := 3; reps := "30 seconds"; rest_seconds := 45 |};
          {| name := "Crunches"; sets := 3; reps := "15"; rest_seconds := 45 |};
          {| name := "Bird Dogs"; sets := 3; reps := "10 each side"; rest_seconds := 45 |} ]) ]);
    ("advanced",
     [ ("Upper Body",
        [ {| name := "Diamond Push-ups"; sets := 4; reps := "15-20"; rest_seconds := 45 |};
          {| name := "Pull-ups"; sets := 4; reps := "8-10"; rest_seconds := 60 |};
          {| name := "Dips"; sets := 4; reps := "12-15"; rest_seconds := 60 |} ]);
       ("Lower Body",
        [ {| name := "Jump Squats"; sets := 4; reps := "20"; rest_seconds := 45 |};
          {| name := "Bulgarian Split Squats"; sets := 4; reps := "12 each leg"; rest_seconds := 45 |};
          {| name := "Box Jumps"; sets := 4; reps := "15"; rest_seconds := 60 |} ]);
       ("Core",
        [ {| name := "Hanging Leg Raises"; sets := 4; reps := "15"; rest_seconds := 45 |};
          {| name := "Russian Twists"; sets := 4; reps := "20 each side"; rest_seconds := 45 |};
          {| name := "Ab Wheel Rollouts"; sets := 4; reps := "12"; rest_seconds := 60 |} ]) ]) ].

Definition MEAL_LIBRARY : pydict string (pydict string (list Meal)) :=
  [ ("beginner",
     [ ("Breakfast",
        [ {| meal_name := "Oatmeal with Banana and Honey"; calories := 350; protein := 12; carbs := 65; fats := 6;
             description := "1 cup oatmeal, 1 banana, 1 tbsp honey, 1 cup milk" |};
          {| meal_name := "Greek Yogurt Parfait"; calories := 300; protein := 20; carbs := 45; fats := 8;
             description := "1 cup Greek yogurt, mixed berries, granola" |} ]);
       ("Lunch",
        [ {| meal_name := "Turkey Sandwich"; calories := 400; protein := 25; carbs := 45; fats := 12;
             description := "Whole grain bread, turkey, lettuce, tomato, mayo" |};
          {| meal_name := "Chicken Caesar Salad"; calories := 350; protein := 30; carbs := 15; fats := 20;
             description := "Romaine lettuce, grilled chicken, Caesar dressing, croutons" |} ]);
       ("Dinner",
        [ {| meal_name := "Grilled Chicken with Rice"; calories := 450; protein := 35; carbs := 55; fats := 10;
             description := "6oz chicken breast, 1 cup brown rice, steamed vegetables" |};
          {| meal_name := "Baked Salmon with Sweet Potato"; calories := 500; protein := 40; carbs := 45; fats := 15;
             description := "6oz salmon, 1 medium sweet potato, asparagus" |} ]) ]);
    ("advanced",
     [ ("Breakfast",
        [ {| meal_name := "Protein Oatmeal"; calories := 450; protein := 35; carbs := 65; fats := 8;
             description := "1 cup oatmeal, 1 scoop protein powder, banana, almond butter" |};
          {| meal_name := "Egg White Omelet"; calories := 400; protein := 40; carbs := 20; fats := 15;
             description := "6 egg whites, vegetables, cheese, whole grain toast" |} ]);
       ("Lunch",
        [ {| meal_name := "Chicken Rice Bowl"; calories := 550; protein := 45; carbs := 65; fats := 12;
             description := "8oz chicken breast, 1.5 cups brown rice, vegetables, avocado" |};
          {| meal_name := "Tuna Pasta Salad"; calories := 500; protein := 40; carbs := 60; fats := 15;
             description := "2 cans tuna, whole grain pasta, mixed vegetables, olive oil dressing" |} ]);
       ("Dinner",
        [ {| meal_name := "Steak with Sweet Potato"; calories := 650; protein := 50; carbs := 55; fats := 25;
             description := "8oz lean steak, large sweet potato, broccoli" |};
          {| meal_name := "Turkey Meatballs with Quinoa"; calories := 600; protein := 45; carbs := 65; fats := 20;
             description := "6oz turkey meatballs, 1.5 cups quinoa, roasted vegetables" |} ]) ]) ].

(** [d[key]] on a dictionary with string keys. *)
Definition subscript {V : Type} (d : pydict string V) (key : string)
  : result V :=
  match get d key with
  | Some v => Ok v
  | None => Raise (KeyError key)
  end.

(** [l[i]] for a non-negative index. *)
Definition index {A : Type} (l : list A) (i : Z) : result A :=
  match l !! Z.to_nat i with
  | Some x => Ok x
  | None => Raise IndexError
  end.

Definition range (n : nat) : list Z := map Z.of_nat (seq 0 n).

Definition focus_areas : list string := ["Upper Body"; "Lower Body"; "Core"].

Definition meal_types : list string := ["Breakfast"; "Lunch"; "Dinner"].

(** Body of [for i in range(5)]. *)
Definition workout_day (request : WorkoutPlanRequest) (start : datetime)
    (i : Z) : Rand WorkoutDay :=
  current_date <- lift (add_days start i) ;;
  let day_name := day_name current_date in
  focus_area <- lift (index focus_areas (i mod Z.of_nat (length focus_areas))) ;;
  by_level <- lift (subscript EXERCISE_LIBRARY (fitness_level request)) ;;
  exercises <- lift (subscript by_level focus_area) ;;
  let num_exercises := if duration_minutes request =? 30 then 3 else 5 in
  selected_exercises <-
    sample exercises (Z.min num_exercises (Z.of_nat (length exercises))) ;;
  calories_burn <-
    (if duration_minutes request =? 30 then randint 200 300
     else randint 400 600) ;;
  ret {| day := day_name;
         focus_area := focus_area;
         exercises := selected_exercises;
         calories_burn_estimate := calories_burn |}.

(** The loop [for meal_type in ["Breakfast", "Lunch", "Dinner"]], on the
    pair [(daily_meals, total_calories)]. *)
Fixpoint meal_loop (request : WorkoutPlanRequest) (types : list string)
    (st : list Meal * Z) : Rand (list Meal * Z) :=
  match types with
  | [] => ret st
  | meal_type :: rest =>
      by_level <- lift (subscript MEAL_LIBRARY (fitness_level request)) ;;
      meal_options <- lift (subscript by_level meal_type) ;;
      selected_meal <- choice meal_options ;;
      meal_loop request rest
        (fst st ++ [selected_meal], snd st + calories selected_meal)
  end.

(** Body of [for i in range(7)]. *)
Definition diet_day_of (request : WorkoutPlanRequest) (start : datetime)
    (i : Z) : Rand DietDay :=
  current_date <- lift (add_days start i) ;;
  let day_name := day_name current_date in
  st <- meal_loop request meal_types ([], 0) ;;
  ret {| diet_day := day_name;
         total_calories := snd st;
         meals := fst st |}.

Section Generator.

(** [datetime.strptime(_, "%Y-%m-%d")]: [None] stands for [ValueError]. *)
Variable strptime : string -> option datetime.

Definition generate_weekly_plan (request : WorkoutPlanRequest)
  : Rand WeeklyPlan :=
  if negb (bool_decide (fitness_level request ∈ ["beginner"; "advanced"]))
  then raise (HTTPException 400 "Invalid fitness level")
  else if negb (bool_decide (duration_minutes request ∈ [30; 60]))
  then raise (HTTPException 400 "Invalid duration")
  else
    match strptime (start_date request) with
    | None => raise (HTTPException 400 "Invalid date format")
    | Some start =>
        workout_plan <- for_each (workout_day request start) (range 5) ;;
        diet_plan <- for_each (diet_day_of request start) (range 7) ;;
        ret {| workout_plan := workout_plan; diet_plan := diet_plan |}
    end.

End Generator.

(** *** A model of [strptime] with the format ["%Y-%m-%d"] on ASCII text

    The format compiles to the pattern
    [(\d\d\d\d)-(1[0-2]|0[1-9]|[1-9])-(3[01]|[12]\d|0[1-9]|[1-9]| [1-9])],
    which must match the whole text; the fields must then form a date. *)

Definition digit (c : ascii) : option Z :=
  let n := Z.of_nat (nat_of_ascii c) in
  if (48 <=? n) && (n <=? 57) then Some (n - 48) else None.

Definition parse_year (s : list ascii) : option (Z * list ascii) :=
  match s with
  | a :: b :: c :: d :: rest =>
      match digit a, digit b, digit c, digit d with
      | Some a, Some b, Some c, Some d =>
          Some (1000 * a + 100 * b + 10 * c + d, rest)
      | _, _, _, _ => None
      end
  | _ => None
  end.

Definition parse_dash (s : list ascii) : option (list ascii) :=
  match s with
  | c :: rest => if Ascii.eqb c "-"%char then Some rest else None
  | [] => None
  end.

Definition parse_month (s : list ascii) : option (Z * list ascii) :=
  match s with
  | [] => None
  | c :: rest =>
      match digit c, rest with
      | Some 1, c' :: rest' =>
          match digit c' with
          | Some n => if n <=? 2 then Some (10 + n, rest') else Some (1, rest)
          | None => Some (1, rest)
          end
      | Some 0, c' :: rest' =>
          match digit c' with
          | Some n => if 1 <=? n then Some (n, rest') else None
          | None => None
          end
      | Some 0, [] => None
      | Some n, _ => Some (n, rest)
      | None, _ => None
      end
  end.

Definition parse_day (s : list ascii) : option (Z * list ascii) :=
  match s with
  | [] => None
  | c :: rest =>
      match digit c, rest with
      | Some 3, c' :: rest' =>
          match digit c' with
          | Some n => if n <=? 1 then Some (30 + n, rest') else Some (3, rest)
          | None => Some (3, rest)
          end
      | Some 0, c' :: rest' =>
          match digit c' with
          | Some n => if 1 <=? n then Some (n, rest') else None
          | None => None
          end
      | Some 0, [] => None
      | Some n, c' :: rest' =>
          if n <=? 2
          then match digit c' with
               | Some n' => Some (10 * n + n', rest')
               | None => Some (n, rest)
               end
          else Some (n, rest)
      | Some n, [] => Some (n, rest)
      | None, c' :: rest' =>
          if Ascii.eqb c " "%char
          then match digit c' with
               | Some n => if 1 <=? n then Some (n, rest') else None
               | None => None
               end
          else None
      | None, [] => None
      end
  end.

Definition strptime_ymd (text : string) : option datetime :=
  match parse_year (list_ascii_of_string text) with
  | None => None
  | Some (y, s1) =>
      match parse_dash s1 with
      | None => None
      | Some s2 =>
          match parse_month s2 with
          | None => None
          | Some (m, s3) =>
              match parse_dash s3 with
              | None => None
              | Some s4 =>
                  match parse_day s4 with
                  | Some (d, []) =>
                      if valid_date y m d
                      then Some (mk_datetime y m d 0 0 0 0)
                      else None
                  | _ => None
                  end
              end
          end
      end
  end.

(** *** Vocabulary of the properties *)

(** The exercise table of a fitness level and focus area. *)
Definition table_of (level focus : string) : option (list Exercise) :=
  match get EXERCISE_LIBRARY level with
  | Some by_level => get by_level focus
  | None => None
  end.

(** The exercises of a workout day are a draw without replacement from
    the table of the day's focus area, 3 of them for a 30 minute plan and
    as many as the table allows up to 5 otherwise. *)
Definition day_as_planned (request : WorkoutPlanRequest) (wd : WorkoutDay)
  : Prop :=
  exists table,
    table_of (fitness_level request) (focus_area wd) = Some table
    /\ length (exercises wd)
       = (if duration_minutes request =? 30 then 3%nat
          else Nat.min 5 (length table))
    /\ drawn_from (exercises wd) table.

(** The request passes the three checks of the handler. *)
Definition valid_request (strptime : string -> option datetime)
    (request : WorkoutPlanRequest) : Prop :=
  fitness_level request ∈ ["beginner"; "advanced"]
  /\ duration_minutes request ∈ [30; 60]
  /\ is_Some (strptime (start_date request)).

(** *** Sample inputs *)

Definition example_request : WorkoutPlanRequest :=
  {| fitness_level := "beginner"; duration_minutes := 60;
     start_date := "2024-03-05" |}.

Definition example_rng : rng := fun i => (7 * i + 3)%nat.

Definition example_start : datetime := mk_datetime 2024 3 5 0 0 0 0.

(** The meal table of a fitness level and meal type. *)
Definition meal_table (level meal_type : string) : option (list Meal) :=
  match get MEAL_LIBRARY level with
  | Some by_level => get by_level meal_type
  | None => None
  end.

(** The weekly figure [app.py] shows for a plan:
    [sum(day["calories_burn_estimate"] for day in plan_data["workout_plan"])]. *)
Definition total_calories_burned (workout_plan : list WorkoutDay) : Z :=
  fold_left Z.add (map calories_burn_estimate workout_plan) 0.

Definition example_request_30 : WorkoutPlanRequest :=
  {| fitness_level := "advanced"; duration_minutes := 30;
     start_date := "2024-12-30" |}.

Definition example_request_late : WorkoutPlanRequest :=
  {| fitness_level := "beginner"; duration_minutes := 30;
     start_date := "9999-12-28" |}.

End Planner.


(** * Properties *)

(** ** Dictionaries *)

Section PyDictFacts.
Import PyDict.
Context {K V : Type} `{EqDecision K}.
Implicit Types (d : list (K * V)) (k : K) (v : V).

Lemma get_set_eq d k v : get (set d k v) k = Some v.
Proof.
  induction d as [|[k' v'] d IH]; simpl.
  - by rewrite decide_True.
  - destruct (decide (k = k')) as [->|Hne]; simpl.
    + by rewrite decide_True.
    + by rewrite decide_False.
Qed.

Lemma get_set_ne d k k' v : k ≠ k' -> get (set d k v) k' = get d k'.
Proof.
  intros Hne. induction d as [|[k0 v0] d IH]; simpl.
  - by rewrite decide_False.
  - destruct (decide (k = k0)) as [->|Hk]; simpl.
    + by rewrite !decide_False.
    + destruct (decide (k' = k0)); [done|apply IH].
Qed.

Lemma set_absent d k v : get d k = None -> set d k v = d ++ [(k, v)].
Proof.
  induction d as [|[k' v'] d IH]; simpl; [done|].
  destruct (decide (k = k')); [done|]. intros Hd. by rewrite IH.
Qed.

Lemma keys_set_present d k v : is_Some (get d k) -> keys (set d k v) = keys d.
Proof.
  induction d as [|[k' v'] d IH]; simpl.
  - by intros [? ?].
  - destruct (decide (k = k')) as [->|Hne]; simpl; [done|].
    intros Hd. unfold keys in *. simpl. f_equal. by apply IH.
Qed.

Lemma get_default_set_eq d k v dflt : get_default (set d k v) k dflt = v.
Proof. unfold get_default. by rewrite get_set_eq. Qed.

Lemma get_default_set_ne d k k' v dflt :
  k ≠ k' -> get_default (set d k v) k' dflt = get_default d k' dflt.
Proof. intros Hne. unfold get_default. by rewrite get_set_ne. Qed.

Lemma get_Some_keys d k : is_Some (get d k) <-> k ∈ keys d.
Proof.
  induction d as [|[k' v'] d IH]; simpl.
  - split; [by intros [? ?]|by intros ?%elem_of_nil].
  - destruct (decide (k = k')) as [->|Hne].
    + split; [intros _; apply list_elem_of_here|by eauto].
    + rewrite IH. split; [apply list_elem_of_further|].
      intros [?|?]%elem_of_cons; [done|done].
Qed.

End PyDictFacts.

(** ** The tracking service *)

Section TrackerFacts.
Import PyDict Datetime Tracker.

(** The builtin [sum] adds the elements up. *)
Lemma sum_from (l : list Z) (a : Z) : fold_left Z.add l a = a + foldr Z.add 0 l.
Proof.
  revert a. induction l as [|x l IH]; intros a; simpl; [lia|].
  rewrite IH. lia.
Qed.

Lemma sum_spec (l : list Z) : sum l = foldr Z.add 0 l.
Proof. unfold sum. rewrite sum_from. lia. Qed.

Lemma sum_bounds (lo hi : Z) (l : list Z) :
  Forall (fun x => lo <= x <= hi) l ->
  lo * Z.of_nat (length l) <= sum l <= hi * Z.of_nat (length l).
Proof.
  rewrite sum_spec. induction 1 as [|x l Hx _ IH]; simpl length; simpl foldr.
  - lia.
  - rewrite Nat2Z.inj_succ. lia.
Qed.

Lemma true_div_nonzero (a b : Z) :
  b ≠ 0 -> true_div a b = Ok (inject_Z a / inject_Z b)%Q.
Proof. intros Hb. unfold true_div. by rewrite (proj2 (Z.eqb_neq b 0) Hb). Qed.

(** What [complete_workout] does on a non-empty list. *)
Lemma complete_workout_nonempty now sid completion srv :
  completion ≠ [] ->
  let h := {| session_id := sid;
              date := isoformat now;
              exercises_completed := completion;
              total_time := sum (map time_taken completion);
              overall_difficulty :=
                (inject_Z (sum (map difficulty_rating completion))
                 / inject_Z (Z.of_nat (length completion)))%Q |} in
  complete_workout now sid completion srv
  = (Ok h, {| exercise_database := exercise_database srv;
              workout_history := set (workout_history srv) sid h |}).
Proof.
  intros Hne h. unfold complete_workout.
  destruct completion as [|c completion]; [done|].
  rewrite true_div_nonzero; [done|]. simpl length. lia.
Qed.



(** The worked example: times 30 and 45 with ratings 4 and 2 give a total
    time of 75 and an overall difficulty of 3. *)
Example complete_workout_example :
  exists h,
    fst (complete_workout example_now "workout_20240305_070000"
           example_completion initial_server) = Ok h
    /\ total_time h = 75
    /\ (overall_difficulty h == 3)%Q.
Proof. eexists. vm_compute. repeat split; reflexivity. Qed.








(** *** Unknown exercise ids *)

Lemma first_unknown_exists db selections :
  Exists (fun s => get db (exercise_id s) = None) selections ->
  exists s, first_unknown db selections = Some s.
Proof.
  unfold first_unknown. induction 1 as [s l Hs|s l _ IH]; simpl.
  - unfold contains. rewrite Hs. simpl. eauto.
  - destruct (negb (contains db (exercise_id s))); eauto.
Qed.

Lemma first_unknown_sound db selections s :
  first_unknown db selections = Some s ->
  s ∈ selections /\ get db (exercise_id s) = None.
Proof.
  unfold first_unknown. intros Hf.
  destruct (find_some _ _ Hf) as [Hin Hs]. split.
  - by apply list_elem_of_In.
  - unfold contains in Hs. by destruct (get db (exercise_id s)).
Qed.

Lemma validate_loop_unknown db selections s st :
  first_unknown db selections = Some s ->
  validate_loop db selections st = Raise (unknown_exercise s).
Proof.
  unfold first_unknown. revert st.
  induction selections as [|x l IH]; intros st; simpl; [done|].
  unfold contains. destruct (get db (exercise_id x)) as [e|]; simpl.
  - intros Hf. by apply IH.
  - by intros [= ->].
Qed.

Lemma check_exercises_unknown db selections s :
  first_unknown db selections = Some s ->
  check_exercises db selections = Raise (unknown_exercise s).
Proof.
  unfold first_unknown.
  induction selections as [|x l IH]; simpl; [done|].
  destruct (contains db (exercise_id x)); simpl.
  - exact IH.
  - by intros [= ->].
Qed.

(** C4. When some selection names an exercise id that is not in the
    catalog, both [validate_workout] and [start_workout] raise the status
    400 error "Exercise <id> not found" for the first such selection, and
    return nothing else. *)
Theorem unknown_exercise_rejected selections srv now1 now2 day :
  Exists (fun s => get (exercise_database srv) (exercise_id s) = None)
    selections ->
  exists s,
    s ∈ selections
    /\ get (exercise_database srv) (exercise_id s) = None
    /\ validate_workout selections srv
       = (Raise (HTTPException 400
                   ("Exercise " +:+ exercise_id s +:+ " not found")), srv)
    /\ start_workout now1 now2
         {| session_date := day; exercises := selections |} srv
       = (Raise (HTTPException 400
                   ("Exercise " +:+ exercise_id s +:+ " not found")), srv).
Proof.
  intros [s Hs]%first_unknown_exists. exists s.
  destruct (first_unknown_sound _ _ _ Hs) as [Hin Hget].
  repeat split; [done|done| |].
  - unfold validate_workout. by rewrite (validate_loop_unknown _ _ s).
  - unfold start_workout; simpl. by rewrite (check_exercises_unknown _ _ s).
Qed.

Lemma unknown_exercise_rejected_witness :
  Exists (fun s => get (exercise_database initial_server) (exercise_id s) = None)
    example_selections_unknown
  /\ exists s,
       s ∈ example_selections_unknown
       /\ get (exercise_database initial_server) (exercise_id s) = None
       /\ validate_workout example_selections_unknown initial_server
          = (Raise (HTTPException 400
                      ("Exercise " +:+ exercise_id s +:+ " not found")),
             initial_server)
       /\ start_workout example_now example_now
            {| session_date := "2024-03-05";
               exercises := example_selections_unknown |} initial_server
          = (Raise (HTTPException 400
                      ("Exercise " +:+ exercise_id s +:+ " not found")),
             initial_server).
Proof.
  assert (H : Exists (fun s => get (exercise_database initial_server)
                                 (exercise_id s) = None)
                example_selections_unknown).
  { apply Exists_cons_tl, Exists_cons_hd. reflexivity. }
  split; [exact H|].
  exact (unknown_exercise_rejected example_selections_unknown initial_server
           example_now example_now "2024-03-05" H).
Defined.

Example unknown_exercise_example :
  fst (validate_workout example_selections_unknown initial_server)
  = Raise (HTTPException 400 "Exercise burpee-001 not found")
  /\ fst (start_workout example_now example_now
            {| session_date := "2024-03-05";
               exercises := example_selections_unknown |} initial_server)
     = Raise (HTTPException 400 "Exercise burpee-001 not found").
Proof. split; reflexivity. Qed.

(** *** History queries *)

Lemma startswith_spec (s p : string) :
  startswith s p = true <-> exists rest, s = p +:+ rest.
Proof.
  unfold startswith. revert s. induction p as [|c p IH]; intros s.
  - split; [intros _; by exists s|by destruct s].
  - destruct s as [|c' s]; simpl.
    + split; [done|by intros [? ?]].
    + destruct (ascii_dec c c') as [->|Hne].
      * rewrite IH. split; intros [r Hr]; exists r; [by rewrite Hr|].
        by injection Hr.
      * split; [done|]. intros [r Hr]. injection Hr as Hc _. by subst.
Qed.

(** C7. The history query never raises.  It answers with the stored
    histories whose date stamp starts with the given text, each of them
    and no other, in the order in which their session ids were first
    stored; when there is none it answers with the message
    "No workouts found for this date". *)
Theorem get_workout_history_spec date_prefix srv :
  let stored := values (workout_history srv) in
  exists matching,
    fst (get_workout_history date_prefix srv)
    = Ok (match matching with
          | [] => NoWorkouts "No workouts found for this date"
          | _ :: _ => DailyHistory matching
          end)
    /\ (forall h, h ∈ matching <->
          h ∈ stored /\ exists rest, date h = date_prefix +:+ rest)
    /\ sublist matching stored
    /\ matching
       = filter (fun h => startswith (date h) date_prefix = true) stored.
Proof.
  intros stored.
  exists (filter (fun h => startswith (date h) date_prefix = true) stored).
  split; [|split; [|split; [|reflexivity]]].
  - unfold get_workout_history. fold stored.
    by destruct (filter _ stored).
  - intros h. rewrite list_elem_of_filter, startswith_spec. tauto.
  - apply sublist_filter.
Qed.

(** *** Frame properties *)


(** *** Validation *)


Lemma count_muscle_get st m g :
  get_default (fst (count_muscle st m)) g 0
  = get_default (fst st) g 0 + (if decide (m = g) then 1 else 0).
Proof.
  destruct st as [cnt warns]. unfold count_muscle.
  destruct (2 <? _); simpl; (destruct (decide (m = g)) as [->|Hne];
    [rewrite get_default_set_eq; lia|rewrite get_default_set_ne by done; lia]).
Qed.


Lemma count_muscle_warnings st m :
  snd (count_muscle st m)
  = snd st ++ (if 2 <? get_default (fst st) m 0 + 1
               then [warning_message m (get_default (fst st) m 0 + 1)]
               else []).
Proof.
  destruct st as [cnt warns]. unfold count_muscle.
  rewrite get_default_set_eq. destruct (2 <? _); simpl; [done|].
  by rewrite app_nil_r.
Qed.

Lemma fold_count_get ms st g :
  get_default (fst (fold_left count_muscle ms st)) g 0
  = get_default (fst st) g 0 + Z.of_nat (count_occ MuscleGroup_eq_dec ms g).
Proof.
  revert st. induction ms as [|m ms IH]; intros st; simpl; [lia|].
  rewrite IH, count_muscle_get.
  destruct (decide (m = g)), (MuscleGroup_eq_dec m g); try done; lia.
Qed.


Lemma fold_count_warnings ms st w :
  w ∈ snd (fold_left count_muscle ms st) <->
  w ∈ snd st
  \/ exists g n,
       get_default (fst st) g 0 < n
         <= get_default (fst (fold_left count_muscle ms st)) g 0
       /\ 2 < n /\ w = warning_message g n.
Proof.
  revert st. induction ms as [|m ms IH]; intros st; simpl.
  - split; [by left|]. intros [?|(g & n & ? & _)]; [done|lia].
  - rewrite IH, count_muscle_warnings, elem_of_app. clear IH.
    set (st1 := count_muscle st m).
    set (c' := fun g => get_default (fst (fold_left count_muscle ms st1)) g 0).
    assert (Hstep : forall g, get_default (fst st1) g 0
              = get_default (fst st) g 0 + (if decide (m = g) then 1 else 0))
      by (intros g; apply count_muscle_get).
    assert (Hmono : forall g, get_default (fst st1) g 0 <= c' g)
      by (intros g; unfold c'; rewrite fold_count_get; lia).
    split.
    + intros [[Hw|Hw]|(g & n & Hn & H2 & ->)].
      * by left.
      * right. destruct (Z.ltb_spec 2 (get_default (fst st) m 0 + 1));
          [|by apply elem_of_nil in Hw].
        apply list_elem_of_singleton in Hw as ->.
        exists m, (get_default (fst st) m 0 + 1). repeat split; [lia| |lia].
        specialize (Hmono m). rewrite Hstep, decide_True in Hmono by done.
        exact Hmono.
      * right. exists g, n. repeat split; [|apply Hn|done].
        specialize (Hstep g). destruct (decide (m = g)); lia.
    + intros [Hw|(g & n & Hn & H2 & ->)]; [by left; left|].
      destruct (decide (m = g /\ n = get_default (fst st) m 0 + 1))
        as [[-> ->]|Hne].
      * left; right. rewrite (proj2 (Z.ltb_lt _ _) H2).
        apply list_elem_of_here.
      * right. exists g, n. repeat split; [|apply Hn|done].
        specialize (Hstep g). destruct (decide (m = g)) as [Heq|Hneq]; [|lia].
        assert (n ≠ get_default (fst st) g 0 + 1)
          by (intros Hn'; apply Hne; split; [done|by rewrite Heq]).
        lia.
Qed.

Lemma validate_loop_resolved db selections st :
  Forall (fun s => is_Some (get db (exercise_id s))) selections ->
  validate_loop db selections st
  = Ok (fold_left count_muscle (trained_groups db selections) st).
Proof.
  intros Hall. revert st.
  induction Hall as [|s l [e He] _ IH]; intros st; simpl; [done|].
  rewrite He, fold_left_app. apply IH.
Qed.

Lemma count_occ_NoDup (l : list MuscleGroup) g :
  NoDup l ->
  count_occ MuscleGroup_eq_dec l g = if bool_decide (g ∈ l) then 1%nat else 0%nat.
Proof.
  induction 1 as [|x l Hx _ IH]; simpl; [done|].
  destruct (MuscleGroup_eq_dec x g) as [->|Hne].
  - rewrite IH, (bool_decide_eq_false_2 _ Hx).
    by rewrite bool_decide_eq_true_2 by apply list_elem_of_here.
  - rewrite IH. apply (f_equal (fun b : bool => if b then 1%nat else 0%nat)).
    apply bool_decide_ext. rewrite elem_of_cons. intuition congruence.
Qed.

Lemma count_occ_trained db selections g :
  (forall s e, s ∈ selections -> get db (exercise_id s) = Some e ->
               NoDup (muscle_groups e)) ->
  count_occ MuscleGroup_eq_dec (trained_groups db selections) g
  = times_trained db selections g.
Proof.
  unfold times_trained. induction selections as [|s l IH]; intros Hnd; [done|].
  simpl. rewrite count_occ_app, IH
    by (intros s' e Hs'; apply Hnd; by apply list_elem_of_further).
  destruct (get db (exercise_id s)) as [e|] eqn:He.
  - assert (Ht : targets db g s = bool_decide (g ∈ muscle_groups e))
      by (unfold targets; by rewrite He).
    rewrite Ht, (count_occ_NoDup _ g (Hnd s e (list_elem_of_here _ _) He)).
    by destruct (bool_decide _).
  - assert (Ht : targets db g s = false) by (unfold targets; by rewrite He).
    by rewrite Ht.
Qed.


Lemma get_Forall_values {V : Type} (P : V -> Prop) (d : list (string * V)) k v :
  Forall P (values d) -> get d k = Some v -> P v.
Proof.
  induction d as [|[k' v'] d IH]; simpl; [done|].
  intros [Hv Hd]%Forall_cons. destruct (decide (k = k')); [|by apply IH].
  by intros [= <-].
Qed.



(** Three selections that all train the core: the count for [CORE] is 3
    and the one warning names it. *)
Example validate_three_core :
  exists v,
    fst (validate_workout example_selections_core extended_server) = Ok v
    /\ muscle_group_distribution v = [(CORE, 3)]
    /\ warnings v
       = ["Warning: Core is being trained 3 times. This might lead to excessive fatigue. Consider spreading exercises across different muscle groups."]
    /\ is_valid v = false.
Proof. eexists. vm_compute. repeat split; reflexivity. Qed.

(** The same with the catalog of the source: three selections of squats. *)
Example validate_three_legs :
  exists v,
    fst (validate_workout example_selections_legs initial_server) = Ok v
    /\ muscle_group_distribution v = [(LEGS, 3)]
    /\ warnings v = [warning_message LEGS 3]
    /\ is_valid v = false.
Proof. eexists. vm_compute. repeat split; reflexivity. Qed.

(** No group trained more than twice: valid, no warning. *)
Example validate_balanced :
  exists v,
    fst (validate_workout example_selections_balanced initial_server) = Ok v
    /\ muscle_group_distribution v
       = [(CHEST, 2); (SHOULDERS, 2); (TRICEPS, 2); (LEGS, 1)]
    /\ warnings v = []
    /\ is_valid v = true.
Proof. eexists. vm_compute. repeat split; reflexivity. Qed.

Lemma source_catalog_groups_distinct :
  Forall (fun e => NoDup (muscle_groups e)) (values EXERCISE_DATABASE).
Proof. apply (bool_decide_unpack _). vm_compute. exact I. Qed.

(** Queries on a history of two sessions: a day, a month, a day without
    session, and the export of the month. *)
Example history_query_examples :
  exists h1 h2,
    values (workout_history example_history_server) = [h1; h2]
    /\ date h1 = "2024-03-05T07:08:09" /\ date h2 = "2024-03-06T18:30:00"
    /\ fst (get_workout_history "2024-03-05" example_history_server)
       = Ok (DailyHistory [h1])
    /\ fst (get_workout_history "2024-03" example_history_server)
       = Ok (DailyHistory [h1; h2])
    /\ fst (get_workout_history "2024-04-01" example_history_server)
       = Ok (NoWorkouts "No workouts found for this date")
    /\ fst (export_workout_history "2024-03" example_history_server)
       = Ok (ExportData "2024-03" 2 [h1; h2])
    /\ fst (export_workout_history "2024-04-01" example_history_server)
       = Ok (ExportMessage "No workouts found for this date").
Proof. do 2 eexists. vm_compute. repeat split; reflexivity. Qed.

End TrackerFacts.

(** ** Random draws *)

Section RandomFacts.
Import Random.

Lemma bind_ok {A B : Type} (m : Rand A) (f : A -> Rand B) g a g1 :
  m g = (Ok a, g1) -> bind m f g = f a g1.
Proof. intros Hm. unfold bind. by rewrite Hm. Qed.

Lemma bind_inv {A B : Type} (m : Rand A) (f : A -> Rand B) g b g2 :
  bind m f g = (Ok b, g2) ->
  exists a g1, m g = (Ok a, g1) /\ f a g1 = (Ok b, g2).
Proof.
  unfold bind. destruct (m g) as [[a|e] g1]; [eauto|discriminate].
Qed.

Lemma lift_inv {A : Type} (r : result A) g a g1 :
  lift r g = (Ok a, g1) -> r = Ok a /\ g1 = g.
Proof. unfold lift. by intros [= -> ->]. Qed.

Lemma bind_lift_ok {A B : Type} (r : result A) (f : A -> Rand B) g a :
  r = Ok a -> bind (lift r) f g = f a g.
Proof. by intros ->. Qed.

(** Selecting position [j] among the first [S m] elements and moving the
    last of them into the hole leaves the other [m] as the candidates. *)
Lemma take_swap_out {A : Type} (pool : list A) (j m : nat) (x y : A) :
  (j <= m)%nat -> pool !! j = Some x -> pool !! m = Some y ->
  take (S m) pool ≡ₚ x :: take m (<[j := y]> pool).
Proof.
  intros Hjm Hx Hy. rewrite (take_S_r _ _ _ Hy).
  destruct (decide (j = m)) as [->|Hne].
  - rewrite take_insert_ge by done.
    assert (x = y) as -> by congruence.
    symmetry. apply Permutation_cons_append.
  - assert (Hlt : (j < m)%nat) by lia.
    rewrite take_insert_lt by done.
    assert (Ht : take m pool !! j = Some x) by (by rewrite lookup_take_lt).
    assert (Hlen : (j < length (take m pool))%nat)
      by (eapply lookup_lt_Some; exact Ht).
    rewrite (insert_take_drop _ _ _ Hlen).
    rewrite <- (take_drop_middle _ _ _ Ht) at 1.
    set (a := take j (take m pool)). set (d := drop (S j) (take m pool)).
    rewrite <- app_assoc. simpl.
    rewrite <- (Permutation_middle a (d ++ [y]) x).
    rewrite <- (Permutation_middle a d y).
    apply Permutation_skip. rewrite app_assoc.
    symmetry. apply Permutation_cons_append.
Qed.

Lemma sample_loop_ok {A : Type} (todo : nat) :
  forall (i n : nat) (pool : list A) (g : rng),
    length pool = n -> (i + todo <= n)%nat ->
    exists l g',
      sample_loop todo i n pool g = (Ok l, g')
      /\ length l = todo
      /\ drawn_from l (take (n - i) pool).
Proof.
  induction todo as [|todo IH]; intros i n pool g Hlen Hle; simpl.
  - exists [], g. repeat split. by exists (take (n - i) pool).
  - unfold bind at 1, randbelow.
    set (j := (g 0%nat mod (n - i))%nat).
    assert (Hj : (j < n - i)%nat) by (apply Nat.mod_upper_bound; lia).
    destruct (lookup_lt_is_Some_2 pool j ltac:(lia)) as [x Hx].
    destruct (lookup_lt_is_Some_2 pool (n - i - 1) ltac:(lia)) as [y Hy].
    rewrite Hx, Hy.
    destruct (IH (S i) n (<[j := y]> pool) (fun k => g (S k)))
      as (l & g' & Hrun & Hl & rest & Hperm);
      [by rewrite length_insert|lia|].
    exists (x :: l), g'. rewrite (bind_ok _ _ _ _ _ Hrun).
    repeat split; [simpl; by rewrite Hl|].
    exists rest. simpl. rewrite Hperm.
    replace (n - i)%nat with (S (n - S i)) by lia.
    replace (n - i - 1)%nat with (n - S i)%nat in Hy by lia.
    symmetry. apply take_swap_out; [lia|done|done].
Qed.

(** [sample] returns [k] elements drawn without replacement, whatever the
    draws, when [k] is between 0 and the size of the population. *)
Lemma sample_ok {A : Type} (population : list A) (k : Z) (g : rng) :
  0 <= k <= Z.of_nat (length population) ->
  exists l g',
    sample population k g = (Ok l, g')
    /\ length l = Z.to_nat k
    /\ drawn_from l population.
Proof.
  intros Hk. unfold sample.
  rewrite (proj2 (Z.leb_le _ _) (proj1 Hk)), (proj2 (Z.leb_le _ _) (proj2 Hk)).
  simpl.
  destruct (sample_loop_ok (Z.to_nat k) 0 (length population) population g)
    as (l & g' & Hrun & Hl & Hd); [done|lia|].
  exists l, g'. repeat split; [done|done|].
  by rewrite Nat.sub_0_r, firstn_all in Hd.
Qed.

Lemma sample_inv {A : Type} (population : list A) (k : Z) (g g' : rng) l :
  sample population k g = (Ok l, g') ->
  0 <= k <= Z.of_nat (length population)
  /\ length l = Z.to_nat k
  /\ drawn_from l population.
Proof.
  intros Hrun.
  destruct (decide (0 <= k <= Z.of_nat (length population))) as [Hk|Hk].
  - destruct (sample_ok population k g Hk) as (l' & g'' & Hrun' & Hl & Hd).
    rewrite Hrun in Hrun'. by injection Hrun' as -> ->.
  - unfold sample in Hrun.
    destruct (Z.leb_spec 0 k), (Z.leb_spec k (Z.of_nat (length population)));
      simpl in Hrun; try discriminate. lia.
Qed.

Lemma randint_ok (a b : Z) (g : rng) :
  a <= b ->
  exists v g', randint a b g = (Ok v, g') /\ a <= v <= b.
Proof.
  intros Hab. unfold randint.
  rewrite (proj2 (Z.ltb_lt 0 (b + 1 - a))) by lia.
  unfold bind, randbelow, ret. do 2 eexists. split; [reflexivity|].
  assert (g 0%nat mod Z.to_nat (b + 1 - a) < Z.to_nat (b + 1 - a))%nat
    by (apply Nat.mod_upper_bound; lia).
  lia.
Qed.

Lemma choice_ok {A : Type} (seq : list A) (g : rng) :
  seq ≠ [] ->
  exists x g', choice seq g = (Ok x, g') /\ x ∈ seq.
Proof.
  intros Hne. destruct seq as [|x0 seq]; [done|].
  unfold choice, bind, randbelow.
  set (j := (g 0%nat mod length (x0 :: seq))%nat).
  assert (Hj : (j < length (x0 :: seq))%nat)
    by (apply Nat.mod_upper_bound; simpl; lia).
  destruct (lookup_lt_is_Some_2 _ _ Hj) as [x Hx]. rewrite Hx.
  exists x, (fun i => g (S i)). split; [done|].
  by eapply list_elem_of_lookup_2.
Qed.

Lemma for_each_ok {A B : Type} (P : A -> B -> Prop) (f : A -> Rand B) l :
  (forall x g, x ∈ l -> exists y g', f x g = (Ok y, g') /\ P x y) ->
  forall g, exists ys g', for_each f l g = (Ok ys, g') /\ Forall2 P l ys.
Proof.
  induction l as [|x l IH]; intros Hf g; simpl.
  - exists [], g. by split.
  - destruct (Hf x g (list_elem_of_here _ _)) as (y & g1 & Hy & HP).
    destruct (IH (fun x' g' Hx' => Hf x' g' (list_elem_of_further _ _ _ Hx')) g1)
      as (ys & g2 & Hys & HPs).
    exists (y :: ys), g2. rewrite (bind_ok _ _ _ _ _ Hy), (bind_ok _ _ _ _ _ Hys).
    split; [done|by constructor].
Qed.

Lemma for_each_inv {A B : Type} (f : A -> Rand B) l g ys g' :
  for_each f l g = (Ok ys, g') ->
  Forall2 (fun x y => exists g1 g2, f x g1 = (Ok y, g2)) l ys.
Proof.
  revert g ys. induction l as [|x l IH]; intros g ys; simpl.
  - unfold ret. intros [= <- _]. constructor.
  - intros (y & g1 & Hy & (ys' & g2 & Hys & Hret)%bind_inv)%bind_inv.
    unfold ret in Hret. injection Hret as <- <-.
    constructor; [by eauto|by eapply IH].
Qed.

End RandomFacts.

(** ** The plan generator *)

Section PlannerFacts.
Import PyDict Datetime Random Planner.

Variable strptime : string -> option datetime.

(** C9. [generate_weekly_plan] answers with status 400 and produces no
    plan (and draws nothing) in three cases, checked in this order: detail
    "Invalid fitness level" for every level other than "beginner" and
    "advanced"; detail "Invalid duration" for every duration other than
    30 and 60; detail "Invalid date format" for every start date that
    [strptime] with format [%Y-%m-%d] does not parse.  So every request
    that fails one of the three checks is answered with status 400 and
    one of these details, the first that applies. *)
Theorem generate_plan_rejections request g :
  (fitness_level request ∉ ["beginner"; "advanced"] ->
     generate_weekly_plan strptime request g
     = (Raise (HTTPException 400 "Invalid fitness level"), g))
  /\ (fitness_level request ∈ ["beginner"; "advanced"] ->
      duration_minutes request ∉ [30; 60] ->
        generate_weekly_plan strptime request g
        = (Raise (HTTPException 400 "Invalid duration"), g))
  /\ (fitness_level request ∈ ["beginner"; "advanced"] ->
      duration_minutes request ∈ [30; 60] ->
      strptime (start_date request) = None ->
        generate_weekly_plan strptime request g
        = (Raise (HTTPException 400 "Invalid date format"), g))
  /\ (~ valid_request strptime request ->
      exists detail,
        detail ∈ ["Invalid fitness level"; "Invalid duration";
                  "Invalid date format"]
        /\ generate_weekly_plan strptime request g
           = (Raise (HTTPException 400 detail), g)).
Proof.
  assert (Hlevel : fitness_level request ∉ ["beginner"; "advanced"] ->
            generate_weekly_plan strptime request g
            = (Raise (HTTPException 400 "Invalid fitness level"), g)).
  { intros Hl. unfold generate_weekly_plan.
    by rewrite (bool_decide_eq_false_2 _ Hl). }
  assert (Hduration : fitness_level request ∈ ["beginner"; "advanced"] ->
            duration_minutes request ∉ [30; 60] ->
            generate_weekly_plan strptime request g
            = (Raise (HTTPException 400 "Invalid duration"), g)).
  { intros Hl Hd. unfold generate_weekly_plan.
    by rewrite (bool_decide_eq_true_2 _ Hl), (bool_decide_eq_false_2 _ Hd). }
  assert (Hdate : fitness_level request ∈ ["beginner"; "advanced"] ->
            duration_minutes request ∈ [30; 60] ->
            strptime (start_date request) = None ->
            generate_weekly_plan strptime request g
            = (Raise (HTTPException 400 "Invalid date format"), g)).
  { intros Hl Hd Hs. unfold generate_weekly_plan.
    by rewrite (bool_decide_eq_true_2 _ Hl), (bool_decide_eq_true_2 _ Hd), Hs. }
  split; [exact Hlevel|]. split; [exact Hduration|]. split; [exact Hdate|].
  intros Hinvalid.
  destruct (decide (fitness_level request ∈ ["beginner"; "advanced"])) as [Hl|Hl].
  2: { eexists. split; [|by apply Hlevel]. apply list_elem_of_here. }
  destruct (decide (duration_minutes request ∈ [30; 60])) as [Hd|Hd].
  2: { eexists. split; [|by apply Hduration].
       apply list_elem_of_further, list_elem_of_here. }
  destruct (strptime (start_date request)) as [start|] eqn:Hs.
  - destruct Hinvalid. unfold valid_request. rewrite Hs. eauto.
  - eexists. split; [|by apply Hdate].
    do 2 apply list_elem_of_further. apply list_elem_of_here.
Qed.

(** A plan is only ever returned for a request that passes the checks. *)
Lemma generate_plan_ok_valid request g plan g' :
  generate_weekly_plan strptime request g = (Ok plan, g') ->
  valid_request strptime request.
Proof.
  unfold generate_weekly_plan, valid_request.
  destruct (decide (fitness_level request ∈ ["beginner"; "advanced"])) as [Hl|Hl].
  2: { by rewrite (bool_decide_eq_false_2 _ Hl). }
  destruct (decide (duration_minutes request ∈ [30; 60])) as [Hd|Hd].
  2: { by rewrite (bool_decide_eq_true_2 _ Hl), (bool_decide_eq_false_2 _ Hd). }
  destruct (strptime (start_date request)) as [start|] eqn:Hs.
  - by eauto.
  - by rewrite (bool_decide_eq_true_2 _ Hl), (bool_decide_eq_true_2 _ Hd).
Qed.

Lemma tables_complete level focus :
  level ∈ ["beginner"; "advanced"] -> focus ∈ focus_areas ->
  exists table, table_of level focus = Some table /\ length table = 3%nat.
Proof.
  unfold focus_areas. intros Hl Hf.
  repeat (apply elem_of_cons in Hl as [->|Hl]);
    [| |by apply elem_of_nil in Hl];
    repeat (apply elem_of_cons in Hf as [->|Hf]);
    try (by apply elem_of_nil in Hf);
    eexists; (split; [vm_compute; reflexivity|reflexivity]).
Qed.

Lemma meals_complete level meal_type :
  level ∈ ["beginner"; "advanced"] -> meal_type ∈ meal_types ->
  exists by_level options,
    subscript MEAL_LIBRARY level = Ok by_level
    /\ subscript by_level meal_type = Ok options
    /\ options ≠ [].
Proof.
  unfold meal_types. intros Hl Hm.
  repeat (apply elem_of_cons in Hl as [->|Hl]);
    [| |by apply elem_of_nil in Hl];
    repeat (apply elem_of_cons in Hm as [->|Hm]);
    try (by apply elem_of_nil in Hm);
    do 2 eexists;
    (split; [vm_compute; reflexivity|split; [vm_compute; reflexivity|done]]).
Qed.

Lemma table_of_subscript level focus table :
  table_of level focus = Some table <->
  exists by_level,
    subscript EXERCISE_LIBRARY level = Ok by_level
    /\ subscript by_level focus = Ok table.
Proof.
  unfold table_of, subscript.
  destruct (get EXERCISE_LIBRARY level) as [by_level|].
  - split.
    + intros Hf. exists by_level. by rewrite Hf.
    + intros (b & [= <-] & Hf).
      destruct (get by_level focus); [by injection Hf as ->|done].
  - split; [done|]. by intros (b & ? & _).
Qed.

Lemma index_focus_area (i : Z) :
  0 <= i ->
  exists focus, index focus_areas (i mod Z.of_nat (length focus_areas)) = Ok focus
                /\ focus ∈ focus_areas.
Proof.
  intros Hi. unfold index.
  assert (Hlt : (Z.to_nat (i mod Z.of_nat (length focus_areas))
                 < length focus_areas)%nat).
  { pose proof (Z.mod_pos_bound i (Z.of_nat (length focus_areas))) as Hm.
    simpl length in *. lia. }
  destruct (lookup_lt_is_Some_2 _ _ Hlt) as [focus Hf]. rewrite Hf.
  exists focus. split; [done|]. by eapply list_elem_of_lookup_2.
Qed.

Lemma index_inv {A : Type} (l : list A) (i : Z) x :
  index l i = Ok x -> x ∈ l.
Proof.
  unfold index. destruct (l !! Z.to_nat i) eqn:Hl; [|done].
  intros [= <-]. by eapply list_elem_of_lookup_2.
Qed.

(** What a workout day that was produced looks like. *)
Lemma workout_day_inv request start i g wd g' :
  workout_day request start i g = (Ok wd, g') ->
  exists table,
    table_of (fitness_level request) (focus_area wd) = Some table
    /\ focus_area wd ∈ focus_areas
    /\ length (exercises wd)
       = Z.to_nat (Z.min (if duration_minutes request =? 30 then 3 else 5)
                     (Z.of_nat (length table)))
    /\ drawn_from (exercises wd) table.
Proof.
  unfold workout_day.
  intros (o & g1 & [_ ->]%lift_inv & H)%bind_inv.
  apply bind_inv in H as (focus & g2 & [Hfocus ->]%lift_inv & H).
  apply bind_inv in H as (by_level & g3 & [Hlevel ->]%lift_inv & H).
  apply bind_inv in H as (table & g4 & [Htable ->]%lift_inv & H).
  apply bind_inv in H as (selected & g5 & Hsample & H).
  apply bind_inv in H as (cal & g6 & _ & H).
  unfold ret in H. injection H as <- _. simpl.
  apply sample_inv in Hsample as (_ & Hlen & Hdrawn).
  exists table. repeat split; [|by eapply index_inv|done|done].
  apply table_of_subscript. eauto.
Qed.

(** A workout day is produced whenever its date exists. *)
Lemma workout_day_ok request start i g :
  fitness_level request ∈ ["beginner"; "advanced"] ->
  0 <= i -> 0 < toordinal start + i <= MAXORDINAL ->
  exists wd g', workout_day request start i g = (Ok wd, g').
Proof.
  intros Hl Hi Hrange. unfold workout_day, add_days.
  rewrite (proj2 (Z.ltb_lt _ _) (proj1 Hrange)),
    (proj2 (Z.leb_le _ _) (proj2 Hrange)). cbn [andb].
  rewrite (bind_lift_ok _ _ _ _ eq_refl).
  destruct (index_focus_area i Hi) as (focus & Hfocus & Hin).
  rewrite (bind_lift_ok _ _ _ _ Hfocus).
  destruct (tables_complete _ _ Hl Hin) as (table & Htable & Hlen).
  apply table_of_subscript in Htable as (by_level & Hlevel & Htable).
  rewrite (bind_lift_ok _ _ _ _ Hlevel), (bind_lift_ok _ _ _ _ Htable).
  destruct (sample_ok table
              (Z.min (if duration_minutes request =? 30 then 3 else 5)
                 (Z.of_nat (length table))) g) as (sel & g1 & Hsel & _).
  { destruct (duration_minutes request =? 30); lia. }
  rewrite (bind_ok _ _ _ _ _ Hsel).
  assert (Hcal : exists cal g2,
             (if duration_minutes request =? 30 then randint 200 300
              else randint 400 600) g1 = (Ok cal, g2)).
  { destruct (duration_minutes request =? 30);
      [destruct (randint_ok 200 300 g1) as (c & g2 & Hc & _)
      |destruct (randint_ok 400 600 g1) as (c & g2 & Hc & _)]; try lia; eauto. }
  destruct Hcal as (cal & g2 & Hcal).
  rewrite (bind_ok _ _ _ _ _ Hcal). unfold ret. eauto.
Qed.

Lemma meal_loop_ok request types :
  fitness_level request ∈ ["beginner"; "advanced"] ->
  (forall t, t ∈ types -> t ∈ meal_types) ->
  forall st g, exists st' g', meal_loop request types st g = (Ok st', g').
Proof.
  intros Hl. induction types as [|t types IH]; intros Hsub st g; simpl.
  - unfold ret. eauto.
  - destruct (meals_complete _ t Hl (Hsub t (list_elem_of_here _ _)))
      as (by_level & options & Hlevel & Hoptions & Hne).
    rewrite (bind_lift_ok _ _ _ _ Hlevel), (bind_lift_ok _ _ _ _ Hoptions).
    destruct (choice_ok options g Hne) as (meal & g1 & Hmeal & _).
    rewrite (bind_ok _ _ _ _ _ Hmeal).
    apply IH. intros t' Ht'. apply Hsub. by apply list_elem_of_further.
Qed.

Lemma diet_day_ok request start i g :
  fitness_level request ∈ ["beginner"; "advanced"] ->
  0 < toordinal start + i <= MAXORDINAL ->
  exists dd g', diet_day_of request start i g = (Ok dd, g').
Proof.
  intros Hl Hrange. unfold diet_day_of, add_days.
  rewrite (proj2 (Z.ltb_lt _ _) (proj1 Hrange)),
    (proj2 (Z.leb_le _ _) (proj2 Hrange)). cbn [andb].
  rewrite (bind_lift_ok _ _ _ _ eq_refl).
  destruct (meal_loop_ok request meal_types Hl (fun _ H => H) ([], 0) g)
    as (st & g1 & Hst).
  rewrite (bind_ok _ _ _ _ _ Hst). unfold ret. eauto.
Qed.

Lemma elem_of_range (n : nat) (i : Z) :
  i ∈ range n <-> 0 <= i < Z.of_nat n.
Proof.
  unfold range. rewrite list_elem_of_fmap. split.
  - intros (k & -> & Hk%elem_of_seq). lia.
  - intros Hi. exists (Z.to_nat i). split; [lia|]. apply elem_of_seq. lia.
Qed.

Lemma day_as_planned_of_run request start i g wd g' :
  fitness_level request ∈ ["beginner"; "advanced"] ->
  workout_day request start i g = (Ok wd, g') ->
  day_as_planned request wd.
Proof.
  intros Hl (table & Htable & Hfocus & Hlen & Hdrawn)%workout_day_inv.
  exists table. split; [done|]. split; [|done].
  destruct (tables_complete _ _ Hl Hfocus) as (table' & Htable' & Hthree).
  assert (table' = table) as -> by congruence.
  rewrite Hlen, Hthree. by destruct (duration_minutes request =? 30).
Qed.

Lemma Forall2_Forall_right {A B : Type} (R : A -> B -> Prop) (P : B -> Prop)
    (l : list A) (k : list B) :
  (forall x y, R x y -> P y) -> Forall2 R l k -> Forall P k.
Proof. intros HRP. induction 1; constructor; eauto. Qed.

(** Every plan returned has five workout days, each as planned. *)
Lemma generate_plan_days request g plan g' :
  generate_weekly_plan strptime request g = (Ok plan, g') ->
  length (workout_plan plan) = 5%nat
  /\ Forall (day_as_planned request) (workout_plan plan).
Proof.
  intros Hrun.
  destruct (generate_plan_ok_valid _ _ _ _ Hrun) as (Hl & Hd & _).
  revert Hrun. unfold generate_weekly_plan.
  rewrite (bool_decide_eq_true_2 _ Hl), (bool_decide_eq_true_2 _ Hd).
  cbn [negb].
  destruct (strptime (start_date request)) as [start|]; [|discriminate].
  intros (wp & g1 & Hwp & (dp & g2 & _ & Hret)%bind_inv)%bind_inv.
  unfold ret in Hret. injection Hret as <- _. simpl.
  apply for_each_inv in Hwp. split.
  - by rewrite <- (Forall2_length _ _ _ Hwp).
  - eapply Forall2_Forall_right; [|exact Hwp].
    intros i wd (ga & gb & Hday). by eapply day_as_planned_of_run.
Qed.

(** A plan is returned when the request passes the checks and the seven
    days from the start date on exist. *)
Lemma generate_plan_runs request g start :
  fitness_level request ∈ ["beginner"; "advanced"] ->
  duration_minutes request ∈ [30; 60] ->
  strptime (start_date request) = Some start ->
  0 < toordinal start -> toordinal start + 6 <= MAXORDINAL ->
  exists plan g', generate_weekly_plan strptime request g = (Ok plan, g').
Proof.
  intros Hl Hd Hs Hlo Hhi. unfold generate_weekly_plan.
  rewrite (bool_decide_eq_true_2 _ Hl), (bool_decide_eq_true_2 _ Hd), Hs.
  cbn [negb].
  destruct (for_each_ok (fun _ _ => True) (workout_day request start)
              (range 5)) with (g := g) as (wp & g1 & Hwp & _).
  { intros i ga [Hi0 Hi4]%elem_of_range.
    destruct (workout_day_ok request start i ga Hl Hi0) as (wd & gb & Hrun);
      [lia|eauto]. }
  destruct (for_each_ok (fun _ _ => True) (diet_day_of request start)
              (range 7)) with (g := g1) as (dp & g2 & Hdp & _).
  { intros i ga [Hi0 Hi6]%elem_of_range.
    destruct (diet_day_ok request start i ga Hl) as (dd & gb & Hrun);
      [lia|eauto]. }
  rewrite (bind_ok _ _ _ _ _ Hwp), (bind_ok _ _ _ _ _ Hdp).
  unfold ret. eauto.
Qed.

(** C8. For a request that passes the checks, every plan returned, for
    whatever random draws, has 5 workout days, and the exercises of each
    day are drawn without replacement from the table of its focus area:
    exactly 3 of them for a 30 minute plan, min(5, size of the table) for
    a 60 minute plan.  Such a plan is returned whenever the seven days
    from the start date on are dates of the calendar. *)
Theorem plan_exercise_counts request g :
  valid_request strptime request ->
  (forall plan g',
     generate_weekly_plan strptime request g = (Ok plan, g') ->
     length (workout_plan plan) = 5%nat
     /\ Forall (day_as_planned request) (workout_plan plan))
  /\ (forall start,
        strptime (start_date request) = Some start ->
        0 < toordinal start -> toordinal start + 6 <= MAXORDINAL ->
        exists plan g',
          generate_weekly_plan strptime request g = (Ok plan, g')).
Proof.
  intros (Hl & Hd & _). split.
  - intros plan g'. apply generate_plan_days.
  - intros start. by apply generate_plan_runs.
Qed.

End PlannerFacts.

Section ParserFacts.
Import PyDict Datetime Random Planner.

Lemma example_request_valid : valid_request strptime_ymd example_request.
Proof.
  split; [apply list_elem_of_here|].
  split; [apply list_elem_of_further, list_elem_of_here|].
  vm_compute. eauto.
Defined.

Lemma plan_exercise_counts_witness :
  valid_request strptime_ymd example_request
  /\ strptime_ymd (start_date example_request) = Some example_start
  /\ 0 < toordinal example_start
  /\ toordinal example_start + 6 <= MAXORDINAL
  /\ exists plan g',
       generate_weekly_plan strptime_ymd example_request example_rng
       = (Ok plan, g')
       /\ length (workout_plan plan) = 5%nat
       /\ Forall (day_as_planned example_request) (workout_plan plan).
Proof.
  assert (Hparse : strptime_ymd (start_date example_request)
                   = Some example_start) by reflexivity.
  assert (Hlo : 0 < toordinal example_start) by (vm_compute; reflexivity).
  assert (Hhi : toordinal example_start + 6 <= MAXORDINAL)
    by (vm_compute; discriminate).
  destruct (plan_exercise_counts strptime_ymd example_request example_rng
              example_request_valid) as [Hsafe Hrun].
  destruct (Hrun example_start Hparse Hlo Hhi) as (plan & g' & Hplan).
  split; [exact example_request_valid|]. split; [exact Hparse|].
  split; [exact Hlo|]. split; [exact Hhi|].
  exists plan, g'. split; [exact Hplan|]. exact (Hsafe plan g' Hplan).
Defined.

(** The sample request yields 5 days of 3 exercises each. *)
Example generate_plan_example :
  exists plan,
    fst (generate_weekly_plan strptime_ymd example_request example_rng)
    = Ok plan
    /\ map (fun wd => (day wd, focus_area wd, length (exercises wd)))
         (workout_plan plan)
       = [ ("Tuesday", "Upper Body", 3%nat);
           ("Wednesday", "Lower Body", 3%nat);
           ("Thursday", "Core", 3%nat);
           ("Friday", "Upper Body", 3%nat);
           ("Saturday", "Lower Body", 3%nat) ]
    /\ length (diet_plan plan) = 7%nat.
Proof. eexists. vm_compute. repeat split; reflexivity. Qed.

(** The three rejections on concrete requests. *)
Example generate_plan_rejection_examples :
  fst (generate_weekly_plan strptime_ymd
         {| fitness_level := "intermediate"; duration_minutes := 30;
            start_date := "2024-03-05" |} example_rng)
  = Raise (HTTPException 400 "Invalid fitness level")
  /\ fst (generate_weekly_plan strptime_ymd
            {| fitness_level := "advanced"; duration_minutes := 45;
               start_date := "2024-03-05" |} example_rng)
     = Raise (HTTPException 400 "Invalid duration")
  /\ fst (generate_weekly_plan strptime_ymd
            {| fitness_level := "advanced"; duration_minutes := 60;
               start_date := "05/03/2024" |} example_rng)
     = Raise (HTTPException 400 "Invalid date format")
  /\ fst (generate_weekly_plan strptime_ymd
            {| fitness_level := "advanced"; duration_minutes := 60;
               start_date := "2023-02-29" |} example_rng)
     = Raise (HTTPException 400 "Invalid date format").
Proof. repeat split; reflexivity. Qed.

(** A start date in the last days of year 9999 passes the three checks,
    and the date arithmetic of the loops then raises. *)
Example generate_plan_date_overflow :
  valid_request strptime_ymd
    {| fitness_level := "beginner"; duration_minutes := 30;
       start_date := "9999-12-28" |}
  /\ fst (generate_weekly_plan strptime_ymd
            {| fitness_level := "beginner"; duration_minutes := 30;
               start_date := "9999-12-28" |} example_rng)
     = Raise OverflowError.
Proof.
  split; [|reflexivity].
  split; [apply list_elem_of_here|]. split; [apply list_elem_of_here|].
  vm_compute. eauto.
Qed.

(** The parser follows the format's pattern, which admits one-digit months
    and days: such a start date is a valid one. *)
Example generate_plan_short_date :
  strptime_ymd "2024-3-5" = strptime_ymd "2024-03-05"
  /\ exists plan,
       fst (generate_weekly_plan strptime_ymd
              {| fitness_level := "advanced"; duration_minutes := 30;
                 start_date := "2024-3-5" |} example_rng) = Ok plan
       /\ map (fun wd => length (exercises wd)) (workout_plan plan)
          = [3; 3; 3; 3; 3]%nat.
Proof. split; [reflexivity|]. eexists. vm_compute. split; reflexivity. Qed.

(** *** Dates accepted by the parser *)

Lemma strptime_ymd_valid text d :
  strptime_ymd text = Some d ->
  valid_date (year d) (month d) (Datetime.day d) = true
  /\ hour d = 0 /\ minute d = 0 /\ second d = 0 /\ microsecond d = 0.
Proof.
  unfold strptime_ymd.
  destruct (parse_year _) as [[y s1]|]; [|done].
  destruct (parse_dash s1) as [s2|]; [|done].
  destruct (parse_month s2) as [[m s3]|]; [|done].
  destruct (parse_dash s3) as [s4|]; [|done].
  destruct (parse_day s4) as [[dd [|? ?]]|]; [|done|done].
  destruct (valid_date y m dd) eqn:Hv; [|done].
  by intros [= <-].
Qed.

Lemma days_before_year_bounds y :
  1 <= y <= 9998 -> 0 <= days_before_year y <= 3651428.
Proof.
  intros Hy. unfold days_before_year. cbv zeta.
  Z.to_euclidean_division_equations. lia.
Qed.

Lemma day_of_year_bounds y m d :
  1 <= m <= 12 -> 1 <= d <= days_in_month y m ->
  1 <= days_before_month y m + d <= (if is_leap y then 366 else 365).
Proof.
  intros Hm Hd. unfold days_in_month, days_before_month in *.
  assert (Hcases : m = 1 \/ m = 2 \/ m = 3 \/ m = 4 \/ m = 5 \/ m = 6 \/ m = 7
                   \/ m = 8 \/ m = 9 \/ m = 10 \/ m = 11 \/ m = 12) by lia.
  destruct (is_leap y);
    repeat (destruct Hcases as [->|Hcases]); try subst m;
    repeat match goal with
      | |- context [Z.to_nat ?z] =>
          let v := eval vm_compute in (Z.to_nat z) in
          change (Z.to_nat z) with v
      | H : context [Z.to_nat ?z] |- _ =>
          let v := eval vm_compute in (Z.to_nat z) in
          change (Z.to_nat z) with v in H
      end;
    cbn in Hd |- *; lia.
Qed.

(** Every date the parser returns is a date of the calendar: its ordinal
    lies between 1 and [MAXORDINAL]. *)
Lemma strptime_ymd_ordinal text d :
  strptime_ymd text = Some d -> 1 <= toordinal d <= MAXORDINAL.
Proof.
  intros [Hv _]%strptime_ymd_valid. unfold toordinal, ymd2ord.
  unfold valid_date, MINYEAR, MAXYEAR in Hv.
  repeat (apply andb_prop in Hv as [Hv ?]).
  repeat match goal with H : (_ <=? _) = true |- _ => apply Z.leb_le in H end.
  pose proof (day_of_year_bounds (year d) (month d) (Datetime.day d)
                ltac:(lia) ltac:(lia)) as Hdoy.
  unfold MAXORDINAL.
  destruct (decide (year d = 9999)) as [Hy|Hy].
  - rewrite Hy in *. change (is_leap 9999) with false in Hdoy.
    change (days_before_year 9999) with 3651694. lia.
  - pose proof (days_before_year_bounds (year d) ltac:(lia)).
    destruct (is_leap (year d)); lia.
Qed.

(** With this parser, a request that passes the checks gets its plan as
    soon as its start date is no later than 9999-12-25. *)
Lemma generate_plan_parsed_dates request g start :
  fitness_level request ∈ ["beginner"; "advanced"] ->
  duration_minutes request ∈ [30; 60] ->
  strptime_ymd (start_date request) = Some start ->
  toordinal start <= ymd2ord 9999 12 25 ->
  exists plan g',
    generate_weekly_plan strptime_ymd request g = (Ok plan, g')
    /\ length (workout_plan plan) = 5%nat
    /\ Forall (day_as_planned request) (workout_plan plan).
Proof.
  intros Hl Hd Hs Hlast.
  pose proof (strptime_ymd_ordinal _ _ Hs) as Hord.
  change (ymd2ord 9999 12 25) with (MAXORDINAL - 6) in Hlast.
  destruct (generate_plan_runs strptime_ymd request g start Hl Hd Hs)
    as (plan & g' & Hrun); [lia|lia|].
  exists plan, g'. split; [done|]. by eapply generate_plan_days.
Qed.

End ParserFacts.

(** ** More on dictionaries *)

Section PyDictMore.
Import PyDict.
Context {K V : Type} `{EqDecision K}.
Implicit Types (d : list (K * V)) (k : K) (v : V).

Lemma keys_set_cases d k v :
  (is_Some (get d k) /\ keys (set d k v) = keys d)
  \/ (get d k = None /\ set d k v = d ++ [(k, v)]).
Proof.
  destruct (get d k) as [v'|] eqn:Hd.
  - left. split; [by eauto|]. apply keys_set_present. by rewrite Hd.
  - right. split; [done|]. by apply set_absent.
Qed.

Lemma NoDup_keys_set d k v : NoDup (keys d) -> NoDup (keys (set d k v)).
Proof.
  intros Hnd. destruct (keys_set_cases d k v) as [[_ ->]|[Hnone ->]]; [done|].
  unfold keys. rewrite map_app. simpl. apply NoDup_app. split; [done|].
  split; [|apply NoDup_singleton].
  intros k' Hk' ->%list_elem_of_singleton.
  apply get_Some_keys in Hk'. rewrite Hnone in Hk'. by destruct Hk'.
Qed.

Lemma Forall_set (P : K * V -> Prop) d k v :
  Forall P d -> P (k, v) -> Forall P (set d k v).
Proof.
  intros Hd Hkv. induction Hd as [|[k' v'] d Hx Hd IH]; simpl.
  - by constructor.
  - destruct (decide (k = k')); constructor; done.
Qed.

Lemma length_set d k v :
  (length d <= length (set d k v) <= S (length d))%nat.
Proof.
  induction d as [|[k' v'] d IH]; simpl; [lia|].
  destruct (decide (k = k')); simpl; lia.
Qed.


End PyDictMore.

(** ** The tracking service: sessions, traces and queries *)

Section TrackerMore.
Import PyDict Datetime Tracker.

Lemma first_unknown_none db selections :
  first_unknown db selections = None ->
  Forall (fun s => is_Some (get db (exercise_id s))) selections.
Proof.
  unfold first_unknown. induction selections as [|s l IH]; simpl; [done|].
  unfold contains. destruct (get db (exercise_id s)) as [e|] eqn:He; simpl.
  - intros Hl. constructor; [by rewrite He|by apply IH].
  - discriminate.
Qed.

Lemma check_exercises_resolved db selections :
  Forall (fun s => is_Some (get db (exercise_id s))) selections ->
  check_exercises db selections = Ok tt.
Proof.
  induction 1 as [|s l [e He] _ IH]; simpl; [done|].
  unfold contains. by rewrite He.
Qed.

Lemma build_exercise_plan_resolved db selections :
  Forall (fun s => is_Some (get db (exercise_id s))) selections ->
  exists plan,
    build_exercise_plan db selections = Ok plan
    /\ Forall2 (entry_of db) selections plan.
Proof.
  induction 1 as [|s l [e He] _ IH]; simpl.
  - exists []. by split.
  - destruct IH as (plan & Hplan & Hall).
    rewrite He, Hplan. eexists. split; [reflexivity|].
    constructor; [|done]. by repeat split.
Qed.

(** X1. When every selected exercise id is in the catalog, [start_workout]
    returns a session plan and leaves the server as it was: the session
    id is "workout_" followed by the first clock reading as
    [%Y%m%d_%H%M%S], [started_at] is the second reading in ISO format,
    and the plan has one entry per selection, in the order of the
    selections, each made of the catalog exercise and the sets, reps and
    rest time of its selection. *)
Theorem start_workout_plan now1 now2 workout srv :
  Forall (fun s => is_Some (get (exercise_database srv) (exercise_id s)))
    (exercises workout) ->
  exists plan,
    start_workout now1 now2 workout srv = (Ok plan, srv)
    /\ started_session_id plan = "workout_" +:+ strftime_compact now1
    /\ started_at plan = isoformat now2
    /\ Forall2 (entry_of (exercise_database srv)) (exercises workout)
         (exercise_plan plan)
    /\ length (exercise_plan plan) = length (exercises workout).
Proof.
  intros Hall. unfold start_workout.
  rewrite (check_exercises_resolved _ _ Hall).
  destruct (build_exercise_plan_resolved _ _ Hall) as (plan & -> & Hplan).
  eexists. split; [reflexivity|]. simpl. repeat split; [done|].
  symmetry. by eapply Forall2_length.
Qed.

Lemma start_workout_plan_witness :
  Forall (fun s => is_Some (get (exercise_database initial_server)
                              (exercise_id s)))
    (exercises {| session_date := "2024-03-05";
                  exercises := example_selections_known |})
  /\ exists plan,
       start_workout example_now example_later
         {| session_date := "2024-03-05";
            exercises := example_selections_known |} initial_server
       = (Ok plan, initial_server)
       /\ started_session_id plan = "workout_" +:+ strftime_compact example_now
       /\ started_at plan = isoformat example_later
       /\ Forall2 (entry_of (exercise_database initial_server))
            (exercises {| session_date := "2024-03-05";
                          exercises := example_selections_known |})
            (exercise_plan plan)
       /\ length (exercise_plan plan)
          = length (exercises {| session_date := "2024-03-05";
                                 exercises := example_selections_known |}).
Proof.
  assert (H : Forall (fun s => is_Some (get (exercise_database initial_server)
                                          (exercise_id s)))
                (exercises {| session_date := "2024-03-05";
                              exercises := example_selections_known |})).
  { repeat constructor; vm_compute; eauto. }
  split; [exact H|].
  exact (start_workout_plan example_now example_later _ initial_server H).
Defined.

Example start_workout_example :
  exists plan,
    fst (start_workout example_now example_later
           {| session_date := "2024-03-05";
              exercises := example_selections_known |} initial_server)
    = Ok plan
    /\ started_session_id plan = "workout_20240305_070809"
    /\ started_at plan = "2024-03-06T18:30:00"
    /\ map (fun e => (name (exercise e), planned_sets e, planned_rest_time e))
         (exercise_plan plan)
       = [("Bodyweight Squats", 3, 60); ("Push-ups", 4, 90)].
Proof. eexists. vm_compute. repeat split; reflexivity. Qed.

(** X2. Validation and session start accept the same workouts: each
    returns a result exactly when every selected exercise id is in the
    catalog, and when one raises the other raises the same exception. *)
Theorem validate_and_start_agree selections srv now1 now2 day :
  let workout := {| session_date := day; exercises := selections |} in
  let resolved :=
    Forall (fun s => is_Some (get (exercise_database srv) (exercise_id s)))
      selections in
  (resolved <-> exists v, fst (validate_workout selections srv) = Ok v)
  /\ (resolved <-> exists p, fst (start_workout now1 now2 workout srv) = Ok p)
  /\ (forall e, fst (validate_workout selections srv) = Raise e <->
                fst (start_workout now1 now2 workout srv) = Raise e).
Proof.
  intros workout resolved.
  destruct (first_unknown (exercise_database srv) selections) as [s|] eqn:Hs.
  - assert (Hv : fst (validate_workout selections srv)
                 = Raise (unknown_exercise s))
      by (unfold validate_workout; by rewrite (validate_loop_unknown _ _ s)).
    assert (Hst : fst (start_workout now1 now2 workout srv)
                  = Raise (unknown_exercise s))
      by (unfold start_workout; simpl;
          by rewrite (check_exercises_unknown _ _ s)).
    destruct (first_unknown_sound _ _ _ Hs) as [Hin Hnone].
    assert (Hnot : ~ resolved).
    { intros Hall. apply (proj1 (Forall_forall _ _) Hall) in Hin.
      rewrite Hnone in Hin. by destruct Hin. }
    rewrite Hv, Hst.
    split; [|split];
      [split; [by intros ?|by intros [? ?]]..
      |intros e; split; intros [= <-]; reflexivity].
  - assert (Hall : resolved) by by apply first_unknown_none.
    assert (Hp : exists p, fst (start_workout now1 now2 workout srv) = Ok p).
    { unfold start_workout. simpl.
      rewrite (check_exercises_resolved _ _ Hall).
      destruct (build_exercise_plan_resolved _ _ Hall) as (plan & -> & _).
      simpl. eauto. }
    destruct Hp as [p Hp].
    assert (Hv : exists v, fst (validate_workout selections srv) = Ok v).
    { unfold validate_workout. rewrite (validate_loop_resolved _ _ _ Hall).
      destruct (fold_left _ _ _). simpl. eauto. }
    destruct Hv as [v Hv]. rewrite Hv, Hp. simpl.
    repeat split; try done; eauto.
Qed.

(** *** Validation of a longer list *)

Lemma validate_loop_app db l1 l2 st :
  validate_loop db (l1 ++ l2) st
  = match validate_loop db l1 st with
    | Ok st1 => validate_loop db l2 st1
    | Raise e => Raise e
    end.
Proof.
  revert st. induction l1 as [|s l1 IH]; intros st; simpl; [done|].
  destruct (get db (exercise_id s)); [apply IH|done].
Qed.

Lemma fold_count_prefix ms st :
  snd st `prefix_of` snd (fold_left count_muscle ms st).
Proof.
  revert st. induction ms as [|m ms IH]; intros st; simpl; [done|].
  etrans; [|apply IH]. rewrite count_muscle_warnings. by apply prefix_app_r.
Qed.

Lemma validate_loop_extends db selections st st' :
  validate_loop db selections st = Ok st' ->
  snd st `prefix_of` snd st'
  /\ forall g, get_default (fst st) g 0 <= get_default (fst st') g 0.
Proof.
  revert st. induction selections as [|s l IH]; intros st; simpl.
  - by intros [= ->].
  - destruct (get db (exercise_id s)) as [e|]; [|done].
    intros [Hp Hc]%IH. split.
    + etrans; [apply fold_count_prefix|exact Hp].
    + intros g. etrans; [|apply Hc]. rewrite fold_count_get. lia.
Qed.

(** X3. Selections added at the end of a workout never remove a warning
    and never lower a count: when the longer list validates, so does the
    shorter one, its warnings are the first warnings of the longer list,
    each of its counts is at most the count of the longer list, and it is
    valid whenever the longer list is. *)
Theorem validate_workout_extension l1 l2 srv v :
  fst (validate_workout (l1 ++ l2) srv) = Ok v ->
  exists v1,
    validate_workout l1 srv = (Ok v1, srv)
    /\ warnings v1 `prefix_of` warnings v
    /\ (forall g, get_default (muscle_group_distribution v1) g 0
                  <= get_default (muscle_group_distribution v) g 0)
    /\ (is_valid v = true -> is_valid v1 = true).
Proof.
  unfold validate_workout. rewrite validate_loop_app.
  destruct (validate_loop (exercise_database srv) l1 ([], []))
    as [[cnt1 warns1]|e] eqn:H1; [|done].
  destruct (validate_loop (exercise_database srv) l2 (cnt1, warns1))
    as [[cnt warns]|e] eqn:H2; [|done].
  simpl. intros [= <-]. simpl.
  destruct (validate_loop_extends _ _ _ _ H2) as [Hp Hc]. simpl in *.
  eexists. split; [reflexivity|]. simpl. repeat split; [done|done|].
  rewrite !Nat.eqb_eq. intros Hw. destruct warns; [|done].
  apply prefix_nil_inv in Hp. by rewrite Hp.
Qed.

Lemma validate_workout_extension_witness :
  exists v,
    fst (validate_workout (example_selections_balanced ++ example_selections_legs)
           initial_server) = Ok v
    /\ exists v1,
         validate_workout example_selections_balanced initial_server
         = (Ok v1, initial_server)
         /\ warnings v1 `prefix_of` warnings v
         /\ (forall g, get_default (muscle_group_distribution v1) g 0
                       <= get_default (muscle_group_distribution v) g 0)
         /\ (is_valid v = true -> is_valid v1 = true).
Proof.
  eexists. split; [vm_compute; reflexivity|].
  apply (validate_workout_extension example_selections_balanced
           example_selections_legs initial_server).
  vm_compute. reflexivity.
Defined.

(** *** Invariants of the history over request traces *)

Lemma serve_frame r srv : is_completion r = false -> serve r srv = srv.
Proof.
  destruct r; simpl; try done; intros _.
  - unfold validate_workout. by destruct (validate_loop _ _ _) as [[? ?]|?].
  - unfold start_workout. destruct (check_exercises _ _); [|done].
    by destruct (build_exercise_plan _ _).
  - unfold get_workout_history. by destruct (filter _ _).
  - unfold export_workout_history, get_workout_history.
    by destruct (filter _ _).
Qed.

Lemma complete_workout_consistent now sid completion srv h :
  fst (complete_workout now sid completion srv) = Ok h ->
  session_id h = sid /\ consistent h.
Proof.
  destruct completion as [|c completion]; [done|].
  rewrite (complete_workout_nonempty now sid (c :: completion) srv)
    by discriminate.
  simpl. intros [= <-]. split; [done|]. unfold consistent. simpl.
  split; [done|]. rewrite !sum_spec. split; reflexivity.
Qed.

(** What the history looks like under an invariant kept by every request:
    ids stored once, records stored under their own id and consistent,
    catalog untouched, at most one more record per completion request. *)
Lemma serve_all_invariant rs srv :
  NoDup (keys (workout_history srv)) ->
  Forall (fun kh => session_id (snd kh) = fst kh /\ consistent (snd kh))
    (workout_history srv) ->
  let srv' := serve_all rs srv in
  exercise_database srv' = exercise_database srv
  /\ NoDup (keys (workout_history srv'))
  /\ Forall (fun kh => session_id (snd kh) = fst kh /\ consistent (snd kh))
       (workout_history srv')
  /\ (length (workout_history srv')
      <= length (workout_history srv)
         + length (List.filter is_completion rs))%nat.
Proof.
  revert srv. induction rs as [|r rs IH]; intros srv Hnd Hall; simpl.
  - repeat split; [done|done|lia].
  - destruct (is_completion r) eqn:Hr.
    + destruct r; try discriminate. simpl serve.
      destruct completion as [|c completion].
      * simpl. destruct (IH srv Hnd Hall) as (? & ? & ? & ?).
        repeat split; [done|done|done|simpl; lia].
      * pose proof (complete_workout_nonempty now session_id0
                      (c :: completion) srv ltac:(discriminate)) as Hrun.
        cbv zeta in Hrun.
        pose proof (complete_workout_consistent now session_id0
                      (c :: completion) srv _
                      (f_equal fst Hrun)) as Hcons.
        rewrite Hrun. cbn [snd].
        match goal with |- context [serve_all rs ?s] => set (srv1 := s) end.
        destruct (IH srv1) as (Hdb & Hnd' & Hall' & Hlen).
        { by apply NoDup_keys_set. }
        { by apply Forall_set. }
        repeat split; [done|done|done|].
        pose proof (length_set (workout_history srv) session_id0
                      (Build_WorkoutHistory session_id0 (isoformat now)
                         (c :: completion)
                         (sum (map time_taken (c :: completion)))
                         (inject_Z (sum (map difficulty_rating (c :: completion)))
                          / inject_Z (Z.of_nat (length (c :: completion))))%Q))
          as Hset.
        subst srv1. cbn [workout_history] in Hlen.
        eapply Nat.le_trans; [exact Hlen|].
        change (length (CompleteWorkout now session_id0 (c :: completion)
                        :: List.filter is_completion rs))
          with (S (length (List.filter is_completion rs))).
        lia.
    + rewrite (serve_frame r srv Hr). by apply IH.
Qed.

Lemma get_Forall {V : Type} (P : string * V -> Prop) (d : list (string * V)) k v :
  Forall P d -> get d k = Some v -> P (k, v).
Proof.
  induction d as [|[k' v'] d IH]; simpl; [done|].
  intros [Hv Hd]%Forall_cons. destruct (decide (k = k')) as [->|]; [|by apply IH].
  by intros [= <-].
Qed.

(** X4. Whatever requests the service has served since it started, the
    history holds each session id once, every record is stored under its
    own session id, there are at most as many records as completion
    requests were served, and the catalog is the one it started with. *)
Theorem history_keyed_by_session rs :
  let srv := serve_all rs initial_server in
  exercise_database srv = EXERCISE_DATABASE
  /\ NoDup (keys (workout_history srv))
  /\ (forall sid h, get (workout_history srv) sid = Some h -> session_id h = sid)
  /\ (length (workout_history srv)
      <= length (List.filter is_completion rs))%nat.
Proof.
  intros srv.
  destruct (serve_all_invariant rs initial_server)
    as (Hdb & Hnd & Hall & Hlen); [constructor|constructor|].
  fold srv in Hdb, Hnd, Hall, Hlen. repeat split; [done|done| |done].
  intros sid h Hget. by destruct (get_Forall _ _ _ _ Hall Hget).
Qed.


(** *** Completion followed by a query *)



(** X7. The export is the history query with a head: it answers with the
    query's message when the query finds nothing, and otherwise with the
    date it was asked for, the sessions the query finds and their number,
    which is at least 1; it never raises. *)
Theorem export_wraps_query date_prefix srv :
  match fst (export_workout_history date_prefix srv) with
  | Ok (ExportMessage message) =>
      fst (get_workout_history date_prefix srv) = Ok (NoWorkouts message)
      /\ forall h, h ∈ values (workout_history srv) ->
                   startswith (date h) date_prefix = false
  | Ok (ExportData export_date total_sessions sessions) =>
      export_date = date_prefix
      /\ total_sessions = Z.of_nat (length sessions)
      /\ 1 <= total_sessions
      /\ fst (get_workout_history date_prefix srv) = Ok (DailyHistory sessions)
      /\ sublist sessions (values (workout_history srv))
      /\ Forall (fun h => startswith (date h) date_prefix = true) sessions
  | Raise _ => False
  end.
Proof.
  unfold export_workout_history, get_workout_history.
  destruct (filter _ _) as [|x l] eqn:Hf; cbn [fst].
  - split; [done|]. intros h Hin.
    destruct (startswith (date h) date_prefix) eqn:Hs; [|done].
    assert (Hh : h ∈ filter (fun session =>
                   startswith (date session) date_prefix = true)
                   (values (workout_history srv)))
      by (by apply list_elem_of_filter).
    rewrite Hf in Hh. by apply elem_of_nil in Hh.
  - split; [done|]. split; [done|]. split; [simpl length; lia|].
    split; [done|]. rewrite <- Hf. split.
    + apply sublist_filter.
    + apply Forall_forall. by intros h [? ?]%list_elem_of_filter.
Qed.

(** *** Order of the completions *)




(** *** Sessions started within the same second *)





(** *** Catalog queries and validation *)


(** *** Queries as the history grows *)

Lemma sessions_found_filter date_prefix srv :
  sessions_found date_prefix srv
  = filter (fun h => startswith (date h) date_prefix = true)
      (values (workout_history srv)).
Proof.
  unfold sessions_found, get_workout_history. by destruct (filter _ _).
Qed.



Lemma string_app_assoc (a b c : string) : (a +:+ b) +:+ c = a +:+ (b +:+ c).
Proof.
  induction a as [|x a IH]; [done|].
  change (String x ((a +:+ b) +:+ c) = String x (a +:+ (b +:+ c))).
  by rewrite IH.
Qed.

Lemma filter_sublist_impl {A : Type} (P Q : A -> Prop)
    `{forall x, Decision (P x)} `{forall x, Decision (Q x)} (l : list A) :
  (forall x, P x -> Q x) -> filter P l `sublist_of` filter Q l.
Proof.
  intros HPQ. induction l as [|x l IH]; [done|].
  rewrite !filter_cons. destruct (decide (P x)) as [HP|HP].
  - rewrite decide_True by auto. by apply sublist_skip.
  - destruct (decide (Q x)); [by apply sublist_cons|done].
Qed.

(** X18. Narrowing the queried date narrows the answer: the sessions
    found for a text continued by further characters are among the
    sessions found for the text itself, in the same order. *)
Theorem narrower_query_finds_less date_prefix more srv :
  sublist (sessions_found (date_prefix +:+ more) srv)
    (sessions_found date_prefix srv).
Proof.
  rewrite !sessions_found_filter. apply filter_sublist_impl.
  intros h [rest Hrest]%startswith_spec. apply startswith_spec.
  exists (more +:+ rest). by rewrite <- string_app_assoc.
Qed.

(** *** Short workouts *)

Lemma times_trained_le db selections g :
  (times_trained db selections g <= length selections)%nat.
Proof.
  unfold times_trained. induction selections as [|s l IH]; simpl; [lia|].
  destruct (targets db g s); simpl; lia.
Qed.

(** X19. A workout of at most two selections, all in the catalog, is
    always valid and gets no warning (no catalog entry listing a muscle
    group twice): a group can only be trained too often by three or more
    selections. *)
Theorem short_workout_valid selections srv :
  Forall (fun s => is_Some (get (exercise_database srv) (exercise_id s)))
    selections ->
  (forall s e, s ∈ selections ->
     get (exercise_database srv) (exercise_id s) = Some e ->
     NoDup (muscle_groups e)) ->
  (length selections <= 2)%nat ->
  exists v,
    fst (validate_workout selections srv) = Ok v
    /\ is_valid v = true
    /\ warnings v = [].
Proof.
  intros Hall Hnd Hlen. unfold validate_workout.
  rewrite (validate_loop_resolved _ _ _ Hall).
  destruct (fold_left count_muscle _ _) as [cnt warns] eqn:Hfold.
  assert (Hw : warns = []).
  { destruct warns as [|w warns]; [done|]. exfalso.
    pose proof (fold_count_warnings
                  (trained_groups (exercise_database srv) selections)
                  ([], []) w) as Hwarn.
    rewrite Hfold in Hwarn. simpl in Hwarn.
    destruct (proj1 Hwarn (list_elem_of_here _ _))
      as [Hnil|(g & n & Hn & H2 & _)]; [by apply elem_of_nil in Hnil|].
    pose proof (fold_count_get
                  (trained_groups (exercise_database srv) selections)
                  ([], []) g) as Hget.
    rewrite Hfold in Hget. simpl in Hget.
    rewrite (count_occ_trained _ _ g Hnd) in Hget.
    pose proof (times_trained_le (exercise_database srv) selections g).
    change (get_default [] g 0) with 0 in Hn, Hget. lia. }
  subst warns. eexists. simpl. by repeat split.
Qed.

Lemma short_workout_valid_witness :
  Forall (fun s => is_Some (get (exercise_database initial_server)
                              (exercise_id s))) example_selections_known
  /\ (forall s e, s ∈ example_selections_known ->
        get (exercise_database initial_server) (exercise_id s) = Some e ->
        NoDup (muscle_groups e))
  /\ (length example_selections_known <= 2)%nat
  /\ exists v,
       fst (validate_workout example_selections_known initial_server) = Ok v
       /\ is_valid v = true
       /\ warnings v = [].
Proof.
  assert (H1 : Forall (fun s => is_Some (get (exercise_database initial_server)
                                           (exercise_id s)))
                 example_selections_known).
  { repeat constructor; vm_compute; eauto. }
  assert (H2 : forall s e, s ∈ example_selections_known ->
             get (exercise_database initial_server) (exercise_id s) = Some e ->
             NoDup (muscle_groups e)).
  { intros s e _ He.
    exact (get_Forall_values (fun e => NoDup (muscle_groups e)) _ _ _
             source_catalog_groups_distinct He). }
  assert (H3 : (length example_selections_known <= 2)%nat)
    by (simpl; lia).
  split; [exact H1|]. split; [exact H2|]. split; [exact H3|].
  exact (short_workout_valid example_selections_known initial_server H1 H2 H3).
Defined.

End TrackerMore.

(** ** The plan generator: shape of the plan *)

Section PlannerMore.
Import PyDict Datetime Random Planner.

Variable strptime : string -> option datetime.

Lemma randint_inv (a b : Z) (g g' : rng) v :
  randint a b g = (Ok v, g') -> a <= v <= b.
Proof.
  unfold randint. destruct (Z.ltb_spec 0 (b + 1 - a)) as [Hw|]; [|done].
  unfold bind, randbelow, ret. intros [= <- _].
  assert (g 0%nat mod Z.to_nat (b + 1 - a) < Z.to_nat (b + 1 - a))%nat
    by (apply Nat.mod_upper_bound; lia).
  lia.
Qed.

Lemma choice_inv {A : Type} (seq : list A) (g g' : rng) x :
  choice seq g = (Ok x, g') -> x ∈ seq.
Proof.
  destruct seq as [|x0 seq]; [done|]. unfold choice, bind, randbelow.
  destruct (_ !! _) eqn:Hx; [|done]. unfold ret. intros [= <- _].
  by eapply list_elem_of_lookup_2.
Qed.

Lemma drawn_from_all {A : Type} (l population : list A) :
  drawn_from l population -> length l = length population -> l ≡ₚ population.
Proof.
  intros [rest Hperm] Hlen.
  pose proof (Permutation_length Hperm) as Hl.
  rewrite length_app in Hl. destruct rest; [|simpl in Hl; lia].
  by rewrite app_nil_r in Hperm.
Qed.

Lemma Forall2_map_eq {A B C : Type} (f : B -> C) (h : A -> C) l k :
  Forall2 (fun x y => f y = h x) l k -> map f k = map h l.
Proof. induction 1; simpl; congruence. Qed.

Lemma generate_plan_inv request g plan :
  fst (generate_weekly_plan strptime request g) = Ok plan ->
  exists start g0 g1 g2,
    fitness_level request ∈ ["beginner"; "advanced"]
    /\ duration_minutes request ∈ [30; 60]
    /\ strptime (start_date request) = Some start
    /\ for_each (workout_day request start) (range 5) g0
       = (Ok (workout_plan plan), g1)
    /\ for_each (diet_day_of request start) (range 7) g1
       = (Ok (diet_plan plan), g2).
Proof.
  destruct (generate_weekly_plan strptime request g) as [r g'] eqn:Hrun.
  simpl. intros ->.
  destruct (generate_plan_ok_valid _ _ _ _ _ Hrun) as (Hl & Hd & _).
  revert Hrun. unfold generate_weekly_plan.
  rewrite (bool_decide_eq_true_2 _ Hl), (bool_decide_eq_true_2 _ Hd).
  cbn [negb].
  destruct (strptime (start_date request)) as [start|]; [|discriminate].
  intros (wp & g1 & Hwp & (dp & g2 & Hdp & Hret)%bind_inv)%bind_inv.
  unfold ret in Hret. injection Hret as <- _.
  exists start, g, g1, g2. by repeat split.
Qed.

Lemma workout_day_run request start i g wd g' :
  workout_day request start i g = (Ok wd, g') ->
  day wd = day_name (toordinal start + i)
  /\ index focus_areas (i mod Z.of_nat (length focus_areas))
     = Ok (focus_area wd)
  /\ (if duration_minutes request =? 30
      then 200 <= calories_burn_estimate wd <= 300
      else 400 <= calories_burn_estimate wd <= 600).
Proof.
  unfold workout_day.
  intros (o & g1 & [Ho ->]%lift_inv & H)%bind_inv.
  apply bind_inv in H as (focus & g2 & [Hfocus ->]%lift_inv & H).
  apply bind_inv in H as (by_level & g3 & [_ ->]%lift_inv & H).
  apply bind_inv in H as (table & g4 & [_ ->]%lift_inv & H).
  apply bind_inv in H as (selected & g5 & _ & H).
  apply bind_inv in H as (cal & g6 & Hcal & H).
  unfold ret in H. injection H as <- _. simpl.
  unfold add_days in Ho. destruct (_ && _); [|done]. injection Ho as <-.
  repeat split; [done|].
  destruct (duration_minutes request =? 30); by eapply randint_inv.
Qed.

Lemma meal_table_subscript level meal_type options :
  (exists by_level,
     subscript MEAL_LIBRARY level = Ok by_level
     /\ subscript by_level meal_type = Ok options) ->
  meal_table level meal_type = Some options.
Proof.
  unfold meal_table, subscript. intros (b & Hb & Ho).
  destruct (get MEAL_LIBRARY level); [|done]. injection Hb as ->.
  destruct (get b meal_type); [by injection Ho as ->|done].
Qed.

Lemma meal_loop_inv request types st g st' g' :
  meal_loop request types st g = (Ok st', g') ->
  exists chosen,
    fst st' = fst st ++ chosen
    /\ snd st' = snd st + foldr Z.add 0 (map calories chosen)
    /\ Forall2 (fun t m => exists options,
                  meal_table (fitness_level request) t = Some options
                  /\ m ∈ options) types chosen.
Proof.
  revert st g. induction types as [|t types IH]; intros st g; simpl.
  - unfold ret. intros [= <- _]. exists []. rewrite app_nil_r. simpl.
    repeat split; [lia|constructor].
  - intros (by_level & g1 & [Hlevel ->]%lift_inv & H)%bind_inv.
    apply bind_inv in H as (options & g2 & [Hoptions ->]%lift_inv & H).
    apply bind_inv in H as (meal & g3 & Hmeal%choice_inv & H).
    apply IH in H as (chosen & Hfst & Hsnd & Hall). simpl in Hfst, Hsnd.
    exists (meal :: chosen). rewrite Hfst, Hsnd, <- app_assoc. simpl.
    repeat split; [lia|]. constructor; [|done].
    exists options. split; [|done]. apply meal_table_subscript. eauto.
Qed.

Lemma diet_day_run request start i g dd g' :
  diet_day_of request start i g = (Ok dd, g') ->
  diet_day dd = day_name (toordinal start + i)
  /\ total_calories dd = foldr Z.add 0 (map calories (meals dd))
  /\ Forall2 (fun t m => exists options,
                meal_table (fitness_level request) t = Some options
                /\ m ∈ options) meal_types (meals dd).
Proof.
  unfold diet_day_of.
  intros (o & g1 & [Ho ->]%lift_inv & H)%bind_inv.
  apply bind_inv in H as (st & g2 & (chosen & Hfst & Hsnd & Hall)%meal_loop_inv & H).
  unfold ret in H. injection H as <- _. simpl in *.
  unfold add_days in Ho. destruct (_ && _); [|done]. injection Ho as <-.
  subst. by repeat split.
Qed.

(** X10. In every plan returned, the five workout days have the focus
    areas Upper Body, Lower Body, Core, Upper Body, Lower Body in this
    order, the diet plan has seven days, and the days are named after
    the weekdays of consecutive dates from the start date on, so the five
    workout days carry the names of the first five diet days. *)
Theorem plan_days_and_focus request g plan :
  fst (generate_weekly_plan strptime request g) = Ok plan ->
  map focus_area (workout_plan plan)
  = ["Upper Body"; "Lower Body"; "Core"; "Upper Body"; "Lower Body"]
  /\ length (diet_plan plan) = 7%nat
  /\ (exists start,
        strptime (start_date request) = Some start
        /\ map day (workout_plan plan)
           = map (fun i => day_name (toordinal start + i)) (range 5)
        /\ map diet_day (diet_plan plan)
           = map (fun i => day_name (toordinal start + i)) (range 7))
  /\ map day (workout_plan plan) = take 5 (map diet_day (diet_plan plan)).
Proof.
  intros (start & g0 & g1 & g2 & _ & _ & Hs & Hwp & Hdp)%generate_plan_inv.
  apply for_each_inv in Hwp, Hdp.
  assert (Hdays : map day (workout_plan plan)
                  = map (fun i => day_name (toordinal start + i)) (range 5)).
  { apply Forall2_map_eq. eapply Forall2_impl; [exact Hwp|].
    intros i wd (ga & gb & Hrun). by apply workout_day_run in Hrun as [? _]. }
  assert (Hdiet : map diet_day (diet_plan plan)
                  = map (fun i => day_name (toordinal start + i)) (range 7)).
  { apply Forall2_map_eq. eapply Forall2_impl; [exact Hdp|].
    intros i dd (ga & gb & Hrun). by apply diet_day_run in Hrun as [? _]. }
  split; [|split; [|split]].
  - transitivity (map (fun i => match index focus_areas
                                         (i mod Z.of_nat (length focus_areas))
                                with Ok f => f | Raise _ => "" end) (range 5));
      [|reflexivity].
    apply Forall2_map_eq. eapply Forall2_impl; [exact Hwp|].
    intros i wd (ga & gb & Hrun).
    apply workout_day_run in Hrun as (_ & Hf & _). by rewrite Hf.
  - by rewrite <- (Forall2_length _ _ _ Hdp).
  - exists start. by repeat split.
  - rewrite Hdays, Hdiet. reflexivity.
Qed.

(** X11. In every plan returned, the calorie estimate of each workout day
    lies between 200 and 300 for a 30 minute plan and between 400 and 600
    otherwise, whatever the draws; the weekly total [app.py] displays is
    then between 1000 and 1500, respectively 2000 and 3000. *)
Theorem plan_calories_burned request g plan :
  fst (generate_weekly_plan strptime request g) = Ok plan ->
  Forall (fun wd => if duration_minutes request =? 30
                    then 200 <= calories_burn_estimate wd <= 300
                    else 400 <= calories_burn_estimate wd <= 600)
    (workout_plan plan)
  /\ (if duration_minutes request =? 30
      then 1000 <= total_calories_burned (workout_plan plan) <= 1500
      else 2000 <= total_calories_burned (workout_plan plan) <= 3000).
Proof.
  intros (start & g0 & g1 & g2 & _ & _ & Hs & Hwp & _)%generate_plan_inv.
  apply for_each_inv in Hwp.
  assert (Hlen : length (workout_plan plan) = 5%nat)
    by (by rewrite <- (Forall2_length _ _ _ Hwp)).
  assert (Hall : Forall (fun wd => if duration_minutes request =? 30
                    then 200 <= calories_burn_estimate wd <= 300
                    else 400 <= calories_burn_estimate wd <= 600)
                   (workout_plan plan)).
  { eapply Forall2_Forall_right; [|exact Hwp].
    intros i wd (ga & gb & Hrun). by apply workout_day_run in Hrun as (_ & _ & ?). }
  split; [exact Hall|]. unfold total_calories_burned.
  change (fold_left Z.add ?l 0) with (Tracker.sum l).
  destruct (duration_minutes request =? 30).
  - pose proof (sum_bounds 200 300 (map calories_burn_estimate (workout_plan plan))
                  ltac:(by apply Forall_map)) as Hb.
    rewrite length_map, Hlen in Hb. lia.
  - pose proof (sum_bounds 400 600 (map calories_burn_estimate (workout_plan plan))
                  ltac:(by apply Forall_map)) as Hb.
    rewrite length_map, Hlen in Hb. lia.
Qed.

Lemma tables_names_distinct level focus table :
  level ∈ ["beginner"; "advanced"] -> focus ∈ focus_areas ->
  table_of level focus = Some table -> NoDup (map name table).
Proof.
  unfold focus_areas. intros Hl Hf.
  repeat (apply elem_of_cons in Hl as [->|Hl]);
    [| |by apply elem_of_nil in Hl];
    repeat (apply elem_of_cons in Hf as [->|Hf]);
    try (by apply elem_of_nil in Hf);
    intros [= <-]; apply (bool_decide_unpack _); vm_compute; exact I.
Qed.

(** X12. In every plan returned, each workout day holds every exercise of
    the table of its focus area exactly once, in some order, for a 30
    minute plan as for a 60 minute plan: the tables have three exercises,
    so the longer plan has no more exercises than the shorter one. *)
Theorem plan_days_use_whole_table request g plan :
  fst (generate_weekly_plan strptime request g) = Ok plan ->
  Forall (fun wd => exists table,
            table_of (fitness_level request) (focus_area wd) = Some table
            /\ exercises wd ≡ₚ table
            /\ length (exercises wd) = 3%nat
            /\ NoDup (map name (exercises wd)))
    (workout_plan plan).
Proof.
  intros (start & g0 & g1 & g2 & Hl & _ & _ & Hwp & _)%generate_plan_inv.
  apply for_each_inv in Hwp.
  eapply Forall2_Forall_right; [|exact Hwp].
  intros i wd (ga & gb & Hrun).
  destruct (workout_day_inv _ _ _ _ _ _ Hrun)
    as (table & Htable & Hfocus & Hlen & Hdrawn).
  destruct (tables_complete _ _ Hl Hfocus) as (table' & Htable' & Hthree).
  assert (table' = table) as -> by congruence.
  assert (Hlen3 : length (exercises wd) = 3%nat).
  { rewrite Hlen, Hthree. by destruct (duration_minutes request =? 30). }
  assert (Hperm : exercises wd ≡ₚ table)
    by (apply drawn_from_all; [done|congruence]).
  exists table. repeat split; [done|done|done|].
  rewrite Hperm. by eapply tables_names_distinct.
Qed.

(** X13. In every plan returned, each diet day has three meals, a
    breakfast, a lunch and a dinner in this order, each taken from the
    table of its meal type for the requested level, and its total is the
    sum of the calories of the three. *)
Theorem diet_day_meals request g plan :
  fst (generate_weekly_plan strptime request g) = Ok plan ->
  Forall (fun dd => exists b l d tb tl td,
            meals dd = [b; l; d]
            /\ meal_table (fitness_level request) "Breakfast" = Some tb /\ b ∈ tb
            /\ meal_table (fitness_level request) "Lunch" = Some tl /\ l ∈ tl
            /\ meal_table (fitness_level request) "Dinner" = Some td /\ d ∈ td
            /\ total_calories dd = calories b + calories l + calories d)
    (diet_plan plan).
Proof.
  intros (start & g0 & g1 & g2 & _ & _ & _ & _ & Hdp)%generate_plan_inv.
  apply for_each_inv in Hdp.
  eapply Forall2_Forall_right; [|exact Hdp].
  intros i dd (ga & gb & (_ & Htotal & Hall)%diet_day_run).
  unfold meal_types in Hall.
  apply Forall2_cons_inv_l in Hall as (b & r1 & (tb & Htb & Hb) & Hall & Hm).
  apply Forall2_cons_inv_l in Hall as (l & r2 & (tl & Htl & Hl) & Hall & ->).
  apply Forall2_cons_inv_l in Hall as (d & r3 & (td & Htd & Hd) & Hall & ->).
  apply Forall2_nil_inv_l in Hall as ->.
  exists b, l, d, tb, tl, td. rewrite Htotal, Hm. simpl.
  repeat split; try done. lia.
Qed.

(** X14. In every plan returned, the calories of a diet day lie between
    1100 and 1250 for a beginner and between 1500 and 1650 for an
    advanced plan, whatever the draws. *)
Theorem diet_day_calorie_range request g plan :
  fst (generate_weekly_plan strptime request g) = Ok plan ->
  Forall (fun dd => if String.eqb (fitness_level request) "beginner"
                    then 1100 <= total_calories dd <= 1250
                    else 1500 <= total_calories dd <= 1650)
    (diet_plan plan).
Proof.
  intros (start & g0 & g1 & g2 & Hlevel & _ & _ & _ & Hdp)%generate_plan_inv.
  apply for_each_inv in Hdp.
  eapply Forall2_Forall_right; [|exact Hdp].
  intros i dd (ga & gb & (_ & Htotal & Hall)%diet_day_run).
  unfold meal_types in Hall.
  apply Forall2_cons_inv_l in Hall as (b & r1 & (tb & Htb & Hb) & Hall & Hm).
  apply Forall2_cons_inv_l in Hall as (l & r2 & (tl & Htl & Hl) & Hall & ->).
  apply Forall2_cons_inv_l in Hall as (d & r3 & (td & Htd & Hd) & Hall & ->).
  apply Forall2_nil_inv_l in Hall as ->.
  rewrite Htotal, Hm. clear Htotal Hm Hdp.
  assert (Hcases : fitness_level request = "beginner"
                   \/ fitness_level request = "advanced").
  { apply elem_of_cons in Hlevel as [?|Hlevel]; [by left|].
    apply elem_of_cons in Hlevel as [?|Hlevel]; [by right|].
    by apply elem_of_nil in Hlevel. }
  destruct Hcases as [Hlv|Hlv]; rewrite Hlv in *;
    vm_compute in Htb, Htl, Htd;
    injection Htb as <-; injection Htl as <-; injection Htd as <-;
    repeat (apply elem_of_cons in Hb as [->|Hb]);
    try (by apply elem_of_nil in Hb);
    repeat (apply elem_of_cons in Hl as [->|Hl]);
    try (by apply elem_of_nil in Hl);
    repeat (apply elem_of_cons in Hd as [->|Hd]);
    try (by apply elem_of_nil in Hd);
    vm_compute; split; discriminate.
Qed.

(** *** What the generator can raise *)

Lemma for_each_raises {A B : Type} (P : exn -> Prop) (f : A -> Rand B) l :
  (forall x g e g', x ∈ l -> f x g = (Raise e, g') -> P e) ->
  forall g e g', for_each f l g = (Raise e, g') -> P e.
Proof.
  induction l as [|x l IH]; intros Hf g e g'; simpl; [done|].
  unfold bind at 1. destruct (f x g) as [[y|e1] g1] eqn:Hx.
  - unfold bind at 1. destruct (for_each f l g1) as [[ys|e2] g2] eqn:Hl.
    + done.
    + intros [= <- _]. eapply IH; [|exact Hl].
      intros x' ga e' gb Hin. apply Hf. by apply list_elem_of_further.
  - intros [= <- _]. eapply Hf; [apply list_elem_of_here|exact Hx].
Qed.

Lemma workout_day_raises request start i g e g' :
  fitness_level request ∈ ["beginner"; "advanced"] -> 0 <= i ->
  workout_day request start i g = (Raise e, g') -> e = OverflowError.
Proof.
  intros Hl Hi Hrun.
  destruct (decide (0 < toordinal start + i <= MAXORDINAL)) as [Hr|Hr].
  - destruct (workout_day_ok request start i g Hl Hi Hr) as (wd & g1 & Hok).
    congruence.
  - revert Hrun. unfold workout_day, add_days.
    destruct (Z.ltb_spec 0 (toordinal start + i)),
      (Z.leb_spec (toordinal start + i) MAXORDINAL);
      try lia; by intros [= <- _].
Qed.

Lemma diet_day_raises request start i g e g' :
  fitness_level request ∈ ["beginner"; "advanced"] ->
  diet_day_of request start i g = (Raise e, g') -> e = OverflowError.
Proof.
  intros Hl Hrun.
  destruct (decide (0 < toordinal start + i <= MAXORDINAL)) as [Hr|Hr].
  - destruct (diet_day_ok request start i g Hl Hr) as (dd & g1 & Hok).
    congruence.
  - revert Hrun. unfold diet_day_of, add_days.
    destruct (Z.ltb_spec 0 (toordinal start + i)),
      (Z.leb_spec (toordinal start + i) MAXORDINAL);
      try lia; by intros [= <- _].
Qed.

(** X15. [generate_weekly_plan] raises nothing but its three status 400
    rejections, for a request that fails a check, and [OverflowError],
    for a request that passes the checks with a start date whose week
    leaves the calendar: no table lookup, index or draw of its own can
    fail. *)
Theorem generate_plan_raises request g e :
  fst (generate_weekly_plan strptime request g) = Raise e ->
  (~ valid_request strptime request
   /\ exists detail,
        e = HTTPException 400 detail
        /\ detail ∈ ["Invalid fitness level"; "Invalid duration";
                     "Invalid date format"])
  \/ (e = OverflowError
      /\ exists start,
           valid_request strptime request
           /\ strptime (start_date request) = Some start
           /\ ~ (0 < toordinal start /\ toordinal start + 6 <= MAXORDINAL)).
Proof.
  unfold generate_weekly_plan, valid_request.
  destruct (decide (fitness_level request ∈ ["beginner"; "advanced"])) as [Hl|Hl].
  2: { rewrite (bool_decide_eq_false_2 _ Hl). simpl. intros [= <-]. left.
       split; [tauto|]. eexists. split; [done|]. apply list_elem_of_here. }
  destruct (decide (duration_minutes request ∈ [30; 60])) as [Hd|Hd].
  2: { rewrite (bool_decide_eq_true_2 _ Hl), (bool_decide_eq_false_2 _ Hd).
       simpl. intros [= <-]. left. split; [tauto|]. eexists. split; [done|].
       apply list_elem_of_further, list_elem_of_here. }
  rewrite (bool_decide_eq_true_2 _ Hl), (bool_decide_eq_true_2 _ Hd).
  cbn [negb].
  destruct (strptime (start_date request)) as [start|] eqn:Hs.
  2: { simpl. intros [= <-]. left. split; [by intros (_ & _ & [? ?])|].
       eexists. split; [done|].
       do 2 apply list_elem_of_further. apply list_elem_of_here. }
  intros Hrun. right.
  assert (He : e = OverflowError).
  { revert Hrun. unfold bind at 1.
    destruct (for_each (workout_day request start) (range 5) g)
      as [[wp|e1] g1] eqn:Hwp.
    - unfold bind at 1.
      destruct (for_each (diet_day_of request start) (range 7) g1)
        as [[dp|e2] g2] eqn:Hdp; [done|].
      simpl. intros [= <-].
      eapply (for_each_raises (fun e => e = OverflowError)); [|exact Hdp].
      intros i ga e' gb _. by apply diet_day_raises.
    - simpl. intros [= <-].
      eapply (for_each_raises (fun e => e = OverflowError)); [|exact Hwp].
      intros i ga e' gb [Hi _]%elem_of_range. by apply workout_day_raises. }
  split; [exact He|]. exists start. split; [by eauto|]. split; [done|].
  intros [Hlo Hhi].
  destruct (generate_plan_runs strptime request g start Hl Hd Hs Hlo Hhi)
    as (plan & g' & Hok).
  unfold generate_weekly_plan in Hok.
  rewrite (bool_decide_eq_true_2 _ Hl), (bool_decide_eq_true_2 _ Hd), Hs in Hok.
  cbn [negb] in Hok. rewrite Hok in Hrun. discriminate.
Qed.

End PlannerMore.

Section PlannerMoreExamples.
Import PyDict Datetime Random Planner.

Lemma plan_days_and_focus_witness :
  exists plan,
    fst (generate_weekly_plan strptime_ymd example_request_30 example_rng)
    = Ok plan
    /\ map focus_area (workout_plan plan)
       = ["Upper Body"; "Lower Body"; "Core"; "Upper Body"; "Lower Body"]
    /\ length (diet_plan plan) = 7%nat
    /\ (exists start,
          strptime_ymd (start_date example_request_30) = Some start
          /\ map day (workout_plan plan)
             = map (fun i => day_name (toordinal start + i)) (range 5)
          /\ map diet_day (diet_plan plan)
             = map (fun i => day_name (toordinal start + i)) (range 7))
    /\ map day (workout_plan plan) = take 5 (map diet_day (diet_plan plan)).
Proof.
  eexists. split; [vm_compute; reflexivity|].
  apply (plan_days_and_focus strptime_ymd example_request_30 example_rng).
  vm_compute. reflexivity.
Defined.

(** A week that starts on Monday 30 December 2024. *)
Example plan_day_names_example :
  exists plan,
    fst (generate_weekly_plan strptime_ymd example_request_30 example_rng)
    = Ok plan
    /\ map day (workout_plan plan)
       = ["Monday"; "Tuesday"; "Wednesday"; "Thursday"; "Friday"]
    /\ map diet_day (diet_plan plan)
       = ["Monday"; "Tuesday"; "Wednesday"; "Thursday"; "Friday";
          "Saturday"; "Sunday"].
Proof. eexists. vm_compute. repeat split; reflexivity. Qed.

Lemma plan_calories_burned_witness :
  exists plan,
    fst (generate_weekly_plan strptime_ymd example_request_30 example_rng)
    = Ok plan
    /\ Forall (fun wd => if duration_minutes example_request_30 =? 30
                         then 200 <= calories_burn_estimate wd <= 300
                         else 400 <= calories_burn_estimate wd <= 600)
         (workout_plan plan)
    /\ (if duration_minutes example_request_30 =? 30
        then 1000 <= total_calories_burned (workout_plan plan) <= 1500
        else 2000 <= total_calories_burned (workout_plan plan) <= 3000).
Proof.
  eexists. split; [vm_compute; reflexivity|].
  apply (plan_calories_burned strptime_ymd example_request_30 example_rng).
  vm_compute. reflexivity.
Defined.

Lemma plan_days_use_whole_table_witness :
  exists plan,
    fst (generate_weekly_plan strptime_ymd example_request example_rng)
    = Ok plan
    /\ Forall (fun wd => exists table,
                 table_of (fitness_level example_request) (focus_area wd)
                 = Some table
                 /\ exercises wd ≡ₚ table
                 /\ length (exercises wd) = 3%nat
                 /\ NoDup (map name (exercises wd)))
         (workout_plan plan).
Proof.
  eexists. split; [vm_compute; reflexivity|].
  apply (plan_days_use_whole_table strptime_ymd example_request example_rng).
  vm_compute. reflexivity.
Defined.

Lemma diet_day_meals_witness :
  exists plan,
    fst (generate_weekly_plan strptime_ymd example_request example_rng)
    = Ok plan
    /\ Forall (fun dd => exists b l d tb tl td,
                 meals dd = [b; l; d]
                 /\ meal_table (fitness_level example_request) "Breakfast"
                    = Some tb /\ b ∈ tb
                 /\ meal_table (fitness_level example_request) "Lunch"
                    = Some tl /\ l ∈ tl
                 /\ meal_table (fitness_level example_request) "Dinner"
                    = Some td /\ d ∈ td
                 /\ total_calories dd = calories b + calories l + calories d)
         (diet_plan plan).
Proof.
  eexists. split; [vm_compute; reflexivity|].
  apply (diet_day_meals strptime_ymd example_request example_rng).
  vm_compute. reflexivity.
Defined.

Lemma diet_day_calorie_range_witness :
  exists plan,
    fst (generate_weekly_plan strptime_ymd example_request_30 example_rng)
    = Ok plan
    /\ Forall (fun dd =>
                 if String.eqb (fitness_level example_request_30) "beginner"
                 then 1100 <= total_calories dd <= 1250
                 else 1500 <= total_calories dd <= 1650)
         (diet_plan plan).
Proof.
  eexists. split; [vm_compute; reflexivity|].
  apply (diet_day_calorie_range strptime_ymd example_request_30 example_rng).
  vm_compute. reflexivity.
Defined.

Lemma generate_plan_raises_witness :
  fst (generate_weekly_plan strptime_ymd example_request_late example_rng)
  = Raise OverflowError
  /\ ((~ valid_request strptime_ymd example_request_late
       /\ exists detail,
            OverflowError = HTTPException 400 detail
            /\ detail ∈ ["Invalid fitness level"; "Invalid duration";
                         "Invalid date format"])
      \/ (OverflowError = OverflowError
          /\ exists start,
               valid_request strptime_ymd example_request_late
               /\ strptime_ymd (start_date example_request_late) = Some start
               /\ ~ (0 < toordinal start
                     /\ toordinal start + 6 <= MAXORDINAL))).
Proof.
  split; [reflexivity|].
  apply (generate_plan_raises strptime_ymd example_request_late example_rng).
  reflexivity.
Defined.

End PlannerMoreExamples.
